(** * PersonaRAG: document retrieval, relevance ranking and persona filtering

    A shallow embedding of [rag_system.py] (document store, persona filter,
    relevance scorer, retriever) and of the prompt assembly of
    [prompt_builder.py] / [role_prompts.py], with the properties of the
    retrieval core stated and proved over it.

    Conventions of the embedding.
    - A Python [str] is a Rocq [string]; a character is a code point below
      256, and [lower], [split] and [strip] follow Python on that range.
    - A Python [int] is a [Z].  A Python [float] is an exact rational [Q]:
      scores are sums, products and quotients of small decimals and of
      lengths, and the model computes them without rounding.
    - A Python [dict] is an association list in insertion order, a Python
      [set] of strings a duplicate-free list.
    - Code that can raise returns a [result]; code that mutates the store
      returns the new store next to its value. *)

From Stdlib Require Import ZArith QArith Qminmax Lia Lqa Bool List.
From Stdlib Require Import Ascii String DecimalString Qround.
From Stdlib Require Import Permutation Sorted.
Import ListNotations.

Local Open Scope string_scope.
Local Open Scope Z_scope.

(** ** Exceptions and the error monad *)

Inductive exn : Type :=
| ZeroDivisionError
| AttributeError (attr : string).

Inductive result (A : Type) : Type :=
| Ok (a : A)
| Raise (e : exn).

Arguments Ok {A} a.
Arguments Raise {A} e.

Definition bind {A B : Type} (m : result A) (k : A -> result B) : result B :=
  match m with
  | Ok a => k a
  | Raise e => Raise e
  end.

Notation "x <- m ;; k" := (bind m (fun x => k))
  (at level 61, m at next level, right associativity).

Definition returns {A : Type} (m : result A) : Prop := exists a, m = Ok a.

(** ** Python strings *)

Module PyStr.

Definition code (c : ascii) : N := N_of_ascii c.

(** [str.isspace] on one character. *)
Definition isspace (c : ascii) : bool :=
  let n := code c in
  (((9 <=? n) && (n <=? 13)) || ((28 <=? n) && (n <=? 32))
   || (n =? 133) || (n =? 160))%N.

(** [str.lower] on one character: A-Z and the upper-case letters of
    Latin-1 move up by 32. *)
Definition lower_char (c : ascii) : ascii :=
  let n := code c in
  if (((65 <=? n) && (n <=? 90))
      || ((192 <=? n) && (n <=? 222) && negb (n =? 215)))%N
  then ascii_of_N (n + 32) else c.

Fixpoint lower (s : string) : string :=
  match s with
  | EmptyString => EmptyString
  | String c s' => String (lower_char c) (lower s')
  end.

(** [t in s]. *)
Fixpoint contains (t s : string) : bool :=
  if prefix t s then true
  else match s with
       | EmptyString => false
       | String _ s' => contains t s'
       end.

Definition startswith (s t : string) : bool := prefix t s.

Fixpoint rev_acc (s acc : string) : string :=
  match s with
  | EmptyString => acc
  | String c s' => rev_acc s' (String c acc)
  end.

Definition rev (s : string) : string := rev_acc s EmptyString.

Definition endswith (s t : string) : bool := prefix (rev t) (rev s).

(** [s.split()]: the maximal runs of non-space characters.  [cur] holds
    the run being read, reversed. *)
Fixpoint split_acc (s : string) (cur : string) : list string :=
  match s with
  | EmptyString =>
      match cur with EmptyString => [] | _ => [rev cur] end
  | String c s' =>
      if isspace c then
        match cur with
        | EmptyString => split_acc s' EmptyString
        | _ => rev cur :: split_acc s' EmptyString
        end
      else split_acc s' (String c cur)
  end.

Definition split (s : string) : list string := split_acc s EmptyString.

Fixpoint mem_char (c : ascii) (chars : string) : bool :=
  match chars with
  | EmptyString => false
  | String d chars' => Ascii.eqb c d || mem_char c chars'
  end.

Fixpoint lstrip (s chars : string) : string :=
  match s with
  | EmptyString => EmptyString
  | String c s' => if mem_char c chars then lstrip s' chars else s
  end.

(** [s.strip(chars)] *)
Definition strip (s chars : string) : string :=
  rev (lstrip (rev (lstrip s chars)) chars).

Definition len (s : string) : Z := Z.of_nat (String.length s).

(** [s[:-n]] for a positive literal [n]. *)
Definition drop_last (n : nat) (s : string) : string :=
  substring 0 (String.length s - n) s.

End PyStr.

(** ** Python lists and dicts *)

Module PyList.

(** [l[:k]]: a negative bound counts from the end. *)
Definition slice_to {A : Type} (k : Z) (l : list A) : list A :=
  if 0 <=? k then firstn (Z.to_nat k) l
  else firstn (Z.to_nat (Z.of_nat (List.length l) + k)) l.

Definition mem_string (x : string) (l : list string) : bool :=
  existsb (String.eqb x) l.

(** [set.add] on a set kept as a duplicate-free list. *)
Definition set_add (x : string) (l : list string) : list string :=
  if mem_string x l then l else l ++ [x].

(** [set(l)] *)
Definition set_of_list (l : list string) : list string :=
  fold_left (fun acc x => set_add x acc) l [].

End PyList.

Module PyDict.

Section Dict.
Context {V : Type}.

Definition t := list (string * V).

Fixpoint get (k : string) (d : t) : option V :=
  match d with
  | [] => None
  | (k', v) :: d' => if String.eqb k k' then Some v else get k d'
  end.

(** [d[k] = v]: an existing key keeps its place. *)
Fixpoint set (k : string) (v : V) (d : t) : t :=
  match d with
  | [] => [(k, v)]
  | (k', v') :: d' =>
      if String.eqb k k' then (k, v) :: d' else (k', v') :: set k v d'
  end.

Definition keys (d : t) : list string := map fst d.
Definition values (d : t) : list V := map snd d.
End Dict.

Arguments t V : clear implicits.

End PyDict.

(** ** Numbers: Python floats as exact rationals *)

Local Open Scope Q_scope.

Definition Qltb (x y : Q) : bool := negb (Qle_bool y x).

(** [a / b] on two ints. *)
Definition truediv (a b : Z) : result Q :=
  if (b =? 0)%Z then Raise ZeroDivisionError
  else Ok (inject_Z a / inject_Z b).

(** [x / n] for a float and an int. *)
Definition fdiv (x : Q) (n : Z) : result Q :=
  if (n =? 0)%Z then Raise ZeroDivisionError
  else Ok (x / inject_Z n).

(** [min(a, b)]: the second argument wins only when strictly smaller. *)
Definition py_min (a b : Q) : Q := if Qltb b a then b else a.

(** ** Data model of [rag_system.py] *)

Inductive DocumentType : Type :=
| POLICY | TECHNICAL | BUSINESS | TRAINING | GENERAL.

Definition DocumentType_value (t : DocumentType) : string :=
  match t with
  | POLICY => "policy"
  | TECHNICAL => "technical"
  | BUSINESS => "business"
  | TRAINING => "training"
  | GENERAL => "general"
  end.

Definition DocumentType_eqb (a b : DocumentType) : bool :=
  match a, b with
  | POLICY, POLICY | TECHNICAL, TECHNICAL | BUSINESS, BUSINESS
  | TRAINING, TRAINING | GENERAL, GENERAL => true
  | _, _ => false
  end.

(** Values found in a document's [metadata]. *)
Inductive MetaVal : Type :=
| MStr (s : string)
| MBool (b : bool)
| MList (l : list string).

Record Document : Type := {
  id : string;
  content : string;
  doc_type : DocumentType;
  metadata : PyDict.t MetaVal;
  relevance_score : Q
}.

(** [doc.relevance_score = r] *)
Definition set_relevance_score (d : Document) (r : Q) : Document :=
  {| id := id d; content := content d; doc_type := doc_type d;
     metadata := metadata d; relevance_score := r |}.

(** Values stored in [retrieval_metadata]. *)
Inductive Scalar : Type :=
| SInt (n : Z)
| SFloat (x : Q)
| SStr (s : string).

(** What an attribute of a [RetrievalResult], or an entry of a prompt's
    [metadata], can hold. *)
Inductive PyVal : Type :=
| VInt (n : Z)
| VStr (s : string)
| VStrs (l : list string)
| VDocs (l : list Document)
| VDict (d : PyDict.t Scalar).

Record RetrievalResult : Type := {
  documents : list Document;
  query : string;
  persona : string;
  total_retrieved : Z;
  retrieval_metadata : PyDict.t Scalar
}.

(** Attribute access on a [RetrievalResult]: the dataclass has the five
    fields above and nothing else. *)
Definition RetrievalResult_getattr (r : RetrievalResult) (name : string)
  : result PyVal :=
  if String.eqb name "documents" then Ok (VDocs (documents r))
  else if String.eqb name "query" then Ok (VStr (query r))
  else if String.eqb name "persona" then Ok (VStr (persona r))
  else if String.eqb name "total_retrieved" then Ok (VInt (total_retrieved r))
  else if String.eqb name "retrieval_metadata"
       then Ok (VDict (retrieval_metadata r))
  else Raise (AttributeError name).

(** ** DocumentStore *)

Definition doc_policy_001 : Document :=
  {| id := "policy_001";
     content := "Remote Work Policy: Employees may work remotely up to 3 days per week with manager approval. This policy supports work-life balance while maintaining team collaboration. All remote work must be logged in the time tracking system.";
     doc_type := POLICY;
     metadata :=
       [("department", MStr "HR");
        ("effective_date", MStr "2024-01-01");
        ("priority", MStr "high")];
     relevance_score := 0 |}.

Definition doc_tech_001 : Document :=
  {| id := "tech_001";
     content := "Authentication System: The system uses JWT tokens for authentication. Tokens are generated server-side using a secret key and contain user claims. The token is sent in the Authorization header as 'Bearer <token>'. Tokens expire after 24 hours and must be refreshed using the refresh endpoint.";
     doc_type := TECHNICAL;
     metadata :=
       [("system", MStr "auth");
        ("complexity", MStr "medium");
        ("dependencies", MList ["JWT"; "OAuth2"])];
     relevance_score := 0 |}.

Definition doc_business_001 : Document :=
  {| id := "business_001";
     content := "Q3 Financial Results: Revenue increased by 15% year-over-year to $2.5M. Customer acquisition cost decreased by 8% while retention improved to 92%. The new product line contributed 30% of total revenue with strong market adoption.";
     doc_type := BUSINESS;
     metadata :=
       [("quarter", MStr "Q3");
        ("year", MStr "2024");
        ("department", MStr "Finance")];
     relevance_score := 0 |}.

Definition doc_trends_001 : Document :=
  {| id := "trends_001";
     content := "Q1 2025 Business Trends: AI adoption accelerating across enterprises with 67% increasing investment. Remote work hybrid models becoming standard with 3-4 days office requirement. Supply chain diversification priority due to geopolitical risks. Sustainability reporting now mandatory for public companies. Cybersecurity budgets increasing by 25% YoY. Key takeaways include AI transformation, hybrid work adoption, and risk management priorities.";
     doc_type := BUSINESS;
     metadata :=
       [("quarter", MStr "Q1");
        ("year", MStr "2025");
        ("category", MStr "trends")];
     relevance_score := 0 |}.

Definition doc_training_001 : Document :=
  {| id := "training_001";
     content := "Onboarding Process: New employees complete a 2-week onboarding program. Week 1 covers company policies, tools training, and team introductions. Week 2 focuses on role-specific training and project assignments. Each new hire is assigned a mentor for the first 90 days.";
     doc_type := TRAINING;
     metadata :=
       [("duration", MStr "2 weeks");
        ("target", MStr "new_hires");
        ("required", MBool true)];
     relevance_score := 0 |}.

Definition doc_general_001 : Document :=
  {| id := "general_001";
     content := "Company Culture: We value innovation, collaboration, and continuous learning. Regular team meetings, hackathons, and knowledge sharing sessions are encouraged. The company supports professional development with annual training budgets.";
     doc_type := GENERAL;
     metadata :=
       [("category", MStr "culture");
        ("audience", MStr "all_employees")];
     relevance_score := 0 |}.

Definition doc_challenges_001 : Document :=
  {| id := "challenges_001";
     content := "Industry Challenges: The technology sector faces significant challenges including talent shortages in AI and cybersecurity fields, increasing regulatory compliance requirements, and pressure to adopt sustainable practices. Companies struggle with digital transformation costs while maintaining legacy system compatibility. Competition for skilled workers has increased salaries by 20% YoY. Data privacy regulations like GDPR and CCPA require significant investment in compliance infrastructure. Supply chain disruptions have increased operational costs by 15%. Customer expectations for 24/7 service require major infrastructure investments.";
     doc_type := BUSINESS;
     metadata :=
       [("category", MStr "challenges");
        ("industry", MStr "technology");
        ("year", MStr "2024")];
     relevance_score := 0 |}.

Definition sample_docs : list Document :=
  [doc_policy_001;
   doc_tech_001;
   doc_business_001;
   doc_trends_001;
   doc_training_001;
   doc_general_001;
   doc_challenges_001].

Record DocumentStore : Type := {
  store_documents : PyDict.t Document
}.

(** [self.documents[document.id] = document] *)
Definition add_document (s : DocumentStore) (document : Document)
  : DocumentStore :=
  {| store_documents := PyDict.set (id document) document (store_documents s) |}.

(** [DocumentStore()]: the empty dict filled by
    [_initialize_sample_documents]. *)
Definition initial_store : DocumentStore :=
  fold_left add_document sample_docs {| store_documents := [] |}.

Definition get_document (s : DocumentStore) (doc_id : string)
  : option Document :=
  PyDict.get doc_id (store_documents s).

Definition get_all_documents (s : DocumentStore) : list Document :=
  PyDict.values (store_documents s).

(** ** PersonaDocumentFilter *)

Record PersonaFilter : Type := {
  preferred_types : list DocumentType;
  content_keywords : list string;
  exclude_keywords : list string;
  max_documents : Z;
  min_relevance : Q
}.

Definition persona_filters : PyDict.t PersonaFilter :=
  [ ("Executive",
     {| preferred_types := [BUSINESS; POLICY];
        content_keywords :=
          ["revenue"; "cost"; "roi"; "strategy"; "risk"; "impact";
           "challenges"; "industry"];
        exclude_keywords := ["implementation"; "code"; "technical"; "debug"];
        max_documents := 3;
        min_relevance := 0.3 |});
    ("Developer",
     {| preferred_types := [TECHNICAL; TRAINING; BUSINESS];
        content_keywords :=
          ["code"; "api"; "system"; "implementation"; "architecture";
           "business"; "trends"; "challenges"; "industry"];
        exclude_keywords := ["executive"; "financial"; "legal"];
        max_documents := 5;
        min_relevance := 0.4 |});
    ("HR Specialist",
     {| preferred_types := [POLICY; TRAINING; GENERAL; BUSINESS];
        content_keywords :=
          ["policy"; "employee"; "compliance"; "process"; "procedure";
           "business"; "trends"; "challenges"; "industry"];
        exclude_keywords := ["code"; "technical"; "revenue"; "financial"];
        max_documents := 4;
        min_relevance := 0.3 |});
    ("Student",
     {| preferred_types := [TRAINING; GENERAL; TECHNICAL; BUSINESS];
        content_keywords :=
          ["learn"; "tutorial"; "guide"; "example"; "process"; "business";
           "trends"; "takeaways"; "key"; "challenges"; "industry"];
        exclude_keywords := ["executive"; "financial"; "legal"];
        max_documents := 3;
        min_relevance := 0.2 |});
    ("General",
     {| preferred_types := [GENERAL; BUSINESS; POLICY];
        content_keywords :=
          ["company"; "culture"; "team"; "business"; "trends"; "challenges";
           "industry"];
        exclude_keywords := ["code"; "implementation"; "debug"];
        max_documents := 4;
        min_relevance := 0.25 |}) ].

(** [doc.doc_type in types] *)
Definition type_in (t : DocumentType) (types : list DocumentType) : bool :=
  existsb (DocumentType_eqb t) types.

(** [any(keyword.lower() in content_lower for keyword in keywords)] *)
Definition any_keyword_in (keywords : list string) (content_lower : string)
  : bool :=
  existsb (fun keyword => PyStr.contains (PyStr.lower keyword) content_lower)
          keywords.

(** One turn of the loop of [filter_documents]: [false] stands for
    [continue], [true] for reaching [filtered_docs.append(doc)]. *)
Definition filter_keeps (filters : PersonaFilter) (doc : Document) : bool :=
  if negb (type_in (doc_type doc) (preferred_types filters))
     && Qltb (relevance_score doc) 0.7
  then false
  else
    let content_lower := PyStr.lower (content doc) in
    if any_keyword_in (exclude_keywords filters) content_lower then false
    else if Qltb (relevance_score doc) (min_relevance filters) then false
    else true.

(** [docs.sort(key=lambda x: x.relevance_score, reverse=True)]: the sort
    is stable, documents of equal score keep their order. *)
Fixpoint insert_desc (d : Document) (l : list Document) : list Document :=
  match l with
  | [] => [d]
  | e :: l' =>
      if Qltb (relevance_score d) (relevance_score e)
      then e :: insert_desc d l'
      else d :: l
  end.

Definition sort_desc (l : list Document) : list Document :=
  fold_right insert_desc [] l.

Definition filter_documents (docs : list Document) (persona : string)
  : list Document :=
  match PyDict.get persona persona_filters with
  | None => docs
  | Some filters =>
      let filtered_docs := filter (filter_keeps filters) docs in
      PyList.slice_to (max_documents filters) (sort_desc filtered_docs)
  end.

(** ** DocumentRetriever.calculate_relevance *)

Definition common_words : list string :=
  ["the"; "is"; "are"; "a"; "an"; "and"; "or"; "but"; "in"; "on"; "at";
   "to"; "for"; "of"; "with"; "by"; "when"; "where"; "how"; "why"; "what";
   "our"; "your"; "their"; "we"; "they"; "you"; "me"; "us"; "them"].

Definition query_terms_of (query_lower : string) : list string :=
  map (fun term => PyStr.strip term "?.!")
      (filter (fun term =>
                 negb (PyList.mem_string term common_words)
                 && (2 <? PyStr.len (PyStr.strip term "?.!"))%Z)
              (PyStr.split query_lower)).

(** The body of the pluralisation loop for one term. *)
Definition expand_term (expanded_terms : list string) (term : string)
  : list string :=
  if PyStr.endswith term "ies"
  then PyList.set_add (PyStr.drop_last 3 term ++ "y") expanded_terms
  else if PyStr.endswith term "s"
  then PyList.set_add (PyStr.drop_last 1 term) expanded_terms
  else if negb (PyStr.endswith term "s")
  then PyList.set_add (term ++ "s") expanded_terms
  else expanded_terms.

Definition expanded_terms_of (query_terms : list string) : list string :=
  fold_left expand_term query_terms (PyList.set_of_list query_terms).

(** The test that makes a match an exact one. *)
Definition exact_phrase (term doc_lower : string) : bool :=
  PyStr.contains (" " ++ term ++ " ") (" " ++ doc_lower ++ " ")
  || PyStr.startswith doc_lower (term ++ " ")
  || PyStr.endswith doc_lower (" " ++ term).

(** The body of the matching loop: the pair is
    [(exact_matches, partial_matches)]. *)
Definition count_term (doc_lower : string) (acc : Z * Z) (term : string)
  : Z * Z :=
  let '(exact_matches, partial_matches) := acc in
  if PyStr.contains term doc_lower then
    if exact_phrase term doc_lower
    then (exact_matches + 2, partial_matches)%Z
    else (exact_matches, partial_matches + 1)%Z
  else acc.

Definition count_matches (doc_lower : string) (expanded_terms : list string)
  : Z * Z :=
  fold_left (count_term doc_lower) expanded_terms (0, 0)%Z.

Definition topic_hit (word query_lower doc_lower : string) : bool :=
  PyStr.contains word query_lower && PyStr.contains word doc_lower.

Definition topic_bonus_of (query_lower doc_lower : string) : Q :=
  let topic_bonus := 0 in
  let topic_bonus :=
    if topic_hit "authentication" query_lower doc_lower
    then topic_bonus + 0.5 else topic_bonus in
  let topic_bonus :=
    if topic_hit "system" query_lower doc_lower
    then topic_bonus + 0.3 else topic_bonus in
  let topic_bonus :=
    if topic_hit "jwt" query_lower doc_lower
    then topic_bonus + 0.4 else topic_bonus in
  let topic_bonus :=
    if topic_hit "token" query_lower doc_lower
    then topic_bonus + 0.3 else topic_bonus in
  let topic_bonus :=
    if topic_hit "cybersecurity" query_lower doc_lower
    then topic_bonus + 0.2 else topic_bonus in
  topic_bonus.

Definition keyword_bonus_of (preferred_keywords : list string)
  (doc_lower : string) : Q :=
  fold_left (fun keyword_bonus keyword =>
               if PyStr.contains (PyStr.lower keyword) doc_lower
               then keyword_bonus + 0.1 else keyword_bonus)
            preferred_keywords 0.

Definition type_bonus_of (preferred : list DocumentType) (t : DocumentType)
  : Q :=
  if type_in t preferred then 0.2 else 0.

(** [persona_filters.get(persona, {}).get("content_keywords", [])] *)
Definition preferred_keywords_of (persona : string) : list string :=
  match PyDict.get persona persona_filters with
  | Some f => content_keywords f
  | None => []
  end.

(** [persona_filters.get(persona, {}).get("preferred_types", [])] *)
Definition preferred_types_of (persona : string) : list DocumentType :=
  match PyDict.get persona persona_filters with
  | Some f => preferred_types f
  | None => []
  end.

Definition calculate_relevance (document : Document) (query persona : string)
  : result Q :=
  let query_lower := PyStr.lower query in
  let doc_lower := PyStr.lower (content document) in
  let query_terms := query_terms_of query_lower in
  let expanded_terms := expanded_terms_of query_terms in
  match expanded_terms with
  | [] => Ok 0
  | _ :: _ =>
      let '(exact_matches, partial_matches) :=
        count_matches doc_lower expanded_terms in
      let total_matches := (exact_matches + partial_matches)%Z in
      query_coverage <-
        truediv total_matches (Z.of_nat (List.length expanded_terms) * 2) ;;
      if Qltb query_coverage 0.3 then Ok 0
      else
        let total_doc_words :=
          Z.of_nat (List.length (PyStr.split doc_lower)) in
        if (total_doc_words =? 0)%Z then Ok 0
        else
          matched_density <- truediv total_matches total_doc_words ;;
          if Qltb matched_density 0.01 then Ok 0
          else
            let topic_bonus := topic_bonus_of query_lower doc_lower in
            let keyword_bonus :=
              keyword_bonus_of (preferred_keywords_of persona) doc_lower in
            let type_bonus :=
              type_bonus_of (preferred_types_of persona)
                            (doc_type document) in
            let relevance :=
              query_coverage * 0.4 + matched_density * 0.2
              + topic_bonus + keyword_bonus + type_bonus in
            Ok (py_min relevance 1)
  end.

(** ** DocumentRetriever.retrieve_documents *)

(** The scoring loop: every document of the store gets its new
    [relevance_score], and those above 0.1 are collected in order.  The
    documents collected are the stored ones, so the second component is read
    off the first. *)
Fixpoint score_documents (docs : PyDict.t Document) (query persona : string)
  : result (PyDict.t Document * list Document) :=
  match docs with
  | [] => Ok ([], [])
  | (key, doc) :: rest =>
      relevance <- calculate_relevance doc query persona ;;
      let doc' := set_relevance_score doc relevance in
      scored <- score_documents rest query persona ;;
      let '(rest', scored_docs) := scored in
      Ok ((key, doc') :: rest',
          if Qltb 0.1 relevance then doc' :: scored_docs else scored_docs)
  end.

(** [sum(doc.relevance_score for doc in docs)].  The sum is exact here;
    the code adds binary64 floats, so its sum can differ from this one in
    the last digits. *)
Definition sum_scores (docs : list Document) : Q :=
  fold_left (fun acc doc => acc + relevance_score doc) docs 0.

(** The value stored under ["avg_relevance"]: the integer 0 for an empty
    list, the quotient otherwise.  The quotient is exact here and rounded in
    the code: the average of equal scores is that score here and can be one
    unit in the last place under it in the code. *)
Definition avg_relevance (filtered_docs : list Document) : result Scalar :=
  match filtered_docs with
  | [] => Ok (SInt 0)
  | _ :: _ =>
      avg <- fdiv (sum_scores filtered_docs)
                  (Z.of_nat (List.length filtered_docs)) ;;
      Ok (SFloat avg)
  end.

Definition retrieve_documents (store : DocumentStore)
  (query persona : string) (top_k : Z)
  : result (RetrievalResult * DocumentStore) :=
  scored <- score_documents (store_documents store) query persona ;;
  let '(documents', scored_docs) := scored in
  let store' := {| store_documents := documents' |} in
  match scored_docs with
  | [] =>
      Ok ({| documents := [];
             query := query;
             persona := persona;
             total_retrieved := 0;
             retrieval_metadata := [("reason", SStr "no_relevant_documents")] |},
          store')
  | _ :: _ =>
      let scored_docs := sort_desc scored_docs in
      let filtered_docs :=
        filter_documents (PyList.slice_to top_k scored_docs) persona in
      avg <- avg_relevance filtered_docs ;;
      Ok ({| documents := filtered_docs;
             query := query;
             persona := persona;
             total_retrieved := Z.of_nat (List.length filtered_docs);
             retrieval_metadata := [("avg_relevance", avg)] |},
          store')
  end.

(** ** DocumentRetriever.build_rag_context *)

Definition nl : string := String (ascii_of_nat 10) EmptyString.
Definition dq : string := String (ascii_of_nat 34) EmptyString.

(** [str(n)] for an int. *)
Definition str_of_Z (n : Z) : string :=
  DecimalString.NilZero.string_of_int (Z.to_int n).

(** Rounding to the nearest integer, ties to even. *)
Definition round_half_even (x : Q) : Z :=
  let f := Qfloor x in
  let r := x - inject_Z f in
  if Qltb r (1 # 2) then f
  else if Qltb (1 # 2) r then (f + 1)%Z
  else if Z.even f then f else (f + 1)%Z.

(** [f"{x:.2f}"], computed on the exact rational.  Python formats the
    binary64 value, so a score that is a decimal tie as a rational (0.225)
    can print with the other last digit there. *)
Definition format_2f (x : Q) : string :=
  let sign := if Qltb x 0 then "-" else EmptyString in
  let n := round_half_even ((if Qltb x 0 then - x else x) * 100) in
  let frac := (n mod 100)%Z in
  sign ++ str_of_Z (n / 100) ++ "."
       ++ (if (frac <? 10)%Z then "0" else EmptyString) ++ str_of_Z frac.

(** The four lines appended for document number [i]. *)
Definition context_entry (i : Z) (doc : Document) : list string :=
  [ "Document " ++ str_of_Z i ++ ":";
    content doc;
    "[Relevance: " ++ format_2f (relevance_score doc) ++ ", Type: "
      ++ DocumentType_value (doc_type doc) ++ "]";
    EmptyString ].

(** The loop over [enumerate(docs, i)]. *)
Fixpoint context_entries (i : Z) (docs : list Document) : list string :=
  match docs with
  | [] => []
  | doc :: rest => context_entry i doc ++ context_entries (i + 1) rest
  end.

Definition build_rag_context (retrieval_result : RetrievalResult) : string :=
  match documents retrieval_result with
  | [] => "No relevant documents found for this query."
  | _ :: _ =>
      String.concat nl
        ([ "Use the following retrieved documents to answer the question.";
           "These documents are selected specifically for the current persona.";
           EmptyString;
           "Retrieved Context:" ]
         ++ context_entries 1 (documents retrieval_result)
         ++ [ "Only use this context to generate the answer." ])
  end.

(** ** Personas and role prompts ([personarag.py], [role_prompts.py]) *)

Module Persona.

Inductive t : Type :=
| EXECUTIVE | DEVELOPER | HR_SPECIALIST | STUDENT | GENERAL.

Definition value (p : t) : string :=
  match p with
  | EXECUTIVE => "Executive"
  | DEVELOPER => "Developer"
  | HR_SPECIALIST => "HR Specialist"
  | STUDENT => "Student"
  | GENERAL => "General"
  end.

End Persona.

Module PersonaType.

Inductive t : Type :=
| EXECUTIVE | DEVELOPER | HR_SPECIALIST | STUDENT | GENERAL.

Definition value (p : t) : string :=
  match p with
  | EXECUTIVE => "Executive"
  | DEVELOPER => "Developer"
  | HR_SPECIALIST => "HR Specialist"
  | STUDENT => "Student"
  | GENERAL => "General"
  end.

End PersonaType.

Record RoleExtension : Type := {
  system_prompt : list string;
  answer_style : list string;
  tone_guidelines : list string;
  content_filters : list string;
  response_format : list string
}.

Definition role_extensions (persona : PersonaType.t) : RoleExtension :=
  match persona with
  | PersonaType.EXECUTIVE =>
      {| system_prompt :=
           ["You are PersonaRAG acting as an Executive-level assistant.";
            "Your task:";
            "1. Carefully understand the user's specific question.";
            "2. Identify the main topic of the question (policy, goals, strategy, technology, etc.).";
            "3. Answer the question using retrieved documents ONLY.";
            "4. Present the answer in an executive style:";
            "   - Strategic";
            "   - High-level";
            "   - Business-focused";
            "   - No technical details";
            "5. Do NOT reuse generic phrases.";
            "6. Ensure each answer is specific to the question asked.";
            "If documents do not contain the answer, clearly state that information is not available."];
         answer_style :=
           ["High-level strategic summary";
            "Focus on ROI, risks, and business impact";
            "Avoid technical implementation details";
            "Keep responses concise and decision-oriented";
            "Include competitive implications when relevant"];
         tone_guidelines :=
           ["Strategic and forward-thinking";
            "Business-focused and results-oriented";
            "Confident and authoritative";
            "Avoid technical jargon and acronyms";
            "Use business metrics and KPIs"];
         content_filters :=
           ["Remove low-level technical details";
            "Focus on business outcomes and impact";
            "Emphasize competitive advantages";
            "Include cost/benefit analysis";
            "Highlight strategic alignment"];
         response_format :=
           ["Start with executive summary";
            "Follow with key implications";
            "End with recommendation or next steps"] |}
  | PersonaType.DEVELOPER =>
      {| system_prompt :=
           ["You are PersonaRAG acting as a Developer-level assistant.";
            "Your task:";
            "1. Carefully understand the user's specific technical question.";
            "2. Identify the main technical topic (API, database, architecture, security, etc.).";
            "3. Answer the question using retrieved documents ONLY.";
            "4. Present the answer in a developer style:";
            "   - Technical and detailed";
            "   - Implementation-focused";
            "   - Include code examples when relevant";
            "5. Do NOT reuse generic phrases.";
            "6. Ensure each answer is specific to the technical question asked.";
            "If documents do not contain the answer, clearly state that technical information is not available."];
         answer_style :=
           ["Technical and detailed explanations";
            "Use precise industry terminology";
            "Provide step-by-step implementation guidance";
            "Include code examples and architectural patterns";
            "Reference best practices and design patterns"];
         tone_guidelines :=
           ["Technical and precise";
            "Practical and implementation-focused";
            "Problem-solving oriented";
            "Use correct technical terminology";
            "Be thorough and comprehensive"];
         content_filters :=
           ["Include technical implementation details";
            "Provide code snippets and examples";
            "Reference relevant frameworks/libraries";
            "Include performance considerations";
            "Add debugging and testing guidance"];
         response_format :=
           ["Technical overview";
            "Implementation steps";
            "Code examples";
            "Best practices";
            "Common pitfalls to avoid"] |}
  | PersonaType.HR_SPECIALIST =>
      {| system_prompt :=
           ["You are PersonaRAG acting as an HR Specialist assistant.";
            "Your task:";
            "1. Carefully understand the user's specific HR question.";
            "2. Identify the main HR topic (policy, benefits, compliance, employee relations, etc.).";
            "3. Answer the question using retrieved documents ONLY.";
            "4. Present the answer in an HR style:";
            "   - Empathetic and people-focused";
            "   - Policy-oriented and compliant";
            "   - Clear process explanations";
            "5. Do NOT reuse generic phrases.";
            "6. Ensure each answer is specific to the HR question asked.";
            "If documents do not contain the answer, clearly state that HR policy information is not available."];
         answer_style :=
           ["Empathetic and people-focused";
            "Policy-oriented and compliant";
            "Clear process explanations";
            "Include legal and compliance considerations";
            "Focus on fairness and consistency"];
         tone_guidelines :=
           ["Empathetic and understanding";
            "Compliance-focused and careful";
            "Clear and procedural";
            "Professional and supportive";
            "Risk-aware and cautious"];
         content_filters :=
           ["Include compliance and legal considerations";
            "Focus on people impact and experience";
            "Reference relevant policies and procedures";
            "Include privacy and confidentiality notes";
            "Emphasize fairness and consistency"];
         response_format :=
           ["Policy overview";
            "People impact assessment";
            "Compliance considerations";
            "Recommended actions";
            "Risk mitigation steps"] |}
  | PersonaType.STUDENT =>
      {| system_prompt :=
           ["You are PersonaRAG acting as a Student-level assistant.";
            "Your task:";
            "1. Carefully understand the user's specific learning question.";
            "2. Identify the main learning topic (concept, process, technology, etc.).";
            "3. Answer the question using retrieved documents ONLY.";
            "4. Present the answer in a student style:";
            "   - Simple, accessible language";
            "   - Explain concepts from basics";
            "   - Use analogies and real-world examples";
            "5. Do NOT reuse generic phrases.";
            "6. Ensure each answer is specific to the learning question asked.";
            "If documents do not contain the answer, clearly state that learning information is not available."];
         answer_style :=
           ["Simple, accessible language";
            "Explain concepts from basics";
            "Use analogies and real-world examples";
            "Break down complex topics into steps";
            "Encourage learning and exploration"];
         tone_guidelines :=
           ["Patient and encouraging";
            "Educational and supportive";
            "Simple and clear";
            "Enthusiastic about learning";
            "Avoid overwhelming complexity"];
         content_filters :=
           ["Simplify complex concepts";
            "Add educational examples and analogies";
            "Explain technical terms in simple language";
            "Include step-by-step breakdowns";
            "Add learning resources or references"];
         response_format :=
           ["Simple concept introduction";
            "Step-by-step explanation";
            "Real-world example";
            "Practice exercise or question";
            "Additional learning resources"] |}
  | PersonaType.GENERAL =>
      {| system_prompt :=
           ["You are PersonaRAG acting as a General-level assistant.";
            "Your task:";
            "1. Carefully understand the user's specific question.";
            "2. Identify the main topic (policy, technology, benefits, process, etc.).";
            "3. Answer the question using retrieved documents ONLY.";
            "4. Present the answer in a general style:";
            "   - Balanced and moderate detail";
            "   - Clear and accessible explanations";
            "   - Practical and useful information";
            "5. Do NOT reuse generic phrases.";
            "6. Ensure each answer is specific to the question asked.";
            "If documents do not contain the answer, clearly state that information is not available."];
         answer_style :=
           ["Balanced and moderate detail";
            "Clear and accessible explanations";
            "Broad appeal and understanding";
            "Practical and useful information";
            "Avoid extremes of simplicity or complexity"];
         tone_guidelines :=
           ["Balanced and neutral";
            "Clear and helpful";
            "Accessible and inclusive";
            "Practical and straightforward";
            "Friendly and approachable"];
         content_filters :=
           ["Balance technical and non-technical content";
            "Ensure broad accessibility";
            "Include practical applications";
            "Maintain clarity without oversimplifying";
            "Add context for better understanding"];
         response_format :=
           ["Clear introduction";
            "Main explanation";
            "Practical implications";
            "Key takeaways";
            "Additional context if needed"] |}
  end.

Definition bullets (items : list string) : list string :=
  map (fun item => "- " ++ item) items.

Definition build_dynamic_prompt (persona : PersonaType.t) : string :=
  let extension := role_extensions persona in
  String.concat nl
    ([ "Current persona: " ++ PersonaType.value persona; EmptyString ]
     ++ system_prompt extension ++ [ EmptyString ]
     ++ [ "Answer style:" ] ++ bullets (answer_style extension)
     ++ [ EmptyString ]
     ++ [ "Tone guidelines:" ] ++ bullets (tone_guidelines extension)
     ++ [ EmptyString ]
     ++ [ "Content filters:" ] ++ bullets (content_filters extension)
     ++ [ EmptyString ]
     ++ [ "Response format:" ] ++ bullets (response_format extension)).

(** ** CompletePromptBuilder ([prompt_builder.py]) *)

Record PromptComponents : Type := {
  master_system_prompt : string;
  role_specific_prompt : string;
  rag_context : string;
  user_question : string;
  prompt_metadata : PyDict.t PyVal
}.

(** The state of a builder that the calls below read or write: the persona
    held by its [PersonaRAG] and its document store. *)
Record CompletePromptBuilder : Type := {
  current_persona : Persona.t;
  doc_store : DocumentStore
}.

(** [CompletePromptBuilder()] *)
Definition new_builder : CompletePromptBuilder :=
  {| current_persona := Persona.GENERAL; doc_store := initial_store |}.

Definition persona_mapping (p : Persona.t) : PersonaType.t :=
  match p with
  | Persona.EXECUTIVE => PersonaType.EXECUTIVE
  | Persona.DEVELOPER => PersonaType.DEVELOPER
  | Persona.HR_SPECIALIST => PersonaType.HR_SPECIALIST
  | Persona.STUDENT => PersonaType.STUDENT
  | Persona.GENERAL => PersonaType.GENERAL
  end.

Definition build_master_system_prompt : string :=
  String.concat nl
    ["You are PersonaRAG, a personalized knowledge assistant.";
     EmptyString;
     "Your task is to answer user questions by:";
     "1. Adapting your response to the user's active persona (role)";
     "2. Using only the provided retrieved documents as the knowledge source";
     "3. Matching the tone, depth, and explanation style of the persona";
     "4. Keeping answers clear, accurate, and relevant";
     EmptyString;
     "Rules:";
     "- If persona is Executive: be concise, strategic, business-focused, no technical jargon.";
     "- If persona is Developer: be technical, precise, include examples or code if relevant.";
     "- If persona is HR Specialist: be empathetic, compliant, policy-oriented, and clear.";
     "- If persona is Student: explain in simple language with examples.";
     "- If persona is General: give a balanced, easy-to-understand answer.";
     EmptyString;
     "If the answer is not found in the retrieved documents, clearly say:";
     dq ++ "I don't have enough information from the available knowledge to answer this." ++ dq;
     EmptyString;
     "Do NOT hallucinate.";
     "Do NOT use external knowledge."].

Definition build_role_specific_prompt (persona : Persona.t) : string :=
  build_dynamic_prompt (persona_mapping persona).

Definition build_rag_context_prompt (store : DocumentStore)
  (user_question : string) (persona : Persona.t)
  : result ((string * RetrievalResult) * DocumentStore) :=
  retrieved <-
    retrieve_documents store user_question (Persona.value persona) 10 ;;
  let '(retrieval_result, store') := retrieved in
  Ok ((build_rag_context retrieval_result, retrieval_result), store').

(** The f-string that joins the four parts. *)
Definition final_prompt_of (master_prompt role_prompt rag_context
  user_question : string) : string :=
  master_prompt ++ nl ++ nl ++ role_prompt ++ nl ++ nl ++ rag_context
  ++ nl ++ nl ++ "User Question:" ++ nl ++ user_question.

(** [build_complete_prompt]: the builder after the call comes with the
    outcome, also when the call raises, since the persona is set and the
    documents are scored before the metadata is put together. *)
Definition build_complete_prompt (self : CompletePromptBuilder)
  (user_question : string) (persona : Persona.t)
  : result PromptComponents * CompletePromptBuilder :=
  let self := {| current_persona := persona; doc_store := doc_store self |} in
  let master_prompt := build_master_system_prompt in
  let role_prompt := build_role_specific_prompt persona in
  match build_rag_context_prompt (doc_store self) user_question persona with
  | Raise e => (Raise e, self)
  | Ok ((rag_context, retrieval_result), store') =>
      let self := {| current_persona := persona; doc_store := store' |} in
      let final_prompt :=
        final_prompt_of master_prompt role_prompt rag_context user_question in
      (documents_retrieved <-
         RetrievalResult_getattr retrieval_result "total_docs_found" ;;
       retrieval_method <-
         RetrievalResult_getattr retrieval_result "retrieval_method" ;;
       let metadata :=
         [ ("persona", VStr (Persona.value persona));
           ("question", VStr user_question);
           ("documents_retrieved", documents_retrieved);
           ("retrieval_method", retrieval_method);
           ("prompt_length", VInt (PyStr.len final_prompt));
           ("retrieved_doc_ids",
            VStrs (map id (documents retrieval_result))) ] in
       Ok {| master_system_prompt := master_prompt;
             role_specific_prompt := role_prompt;
             rag_context := rag_context;
             user_question := user_question;
             prompt_metadata := metadata |},
       self)
  end.

(** ** The scorer as the specification words it

    Section 4.1 of the specification describes the score through counts:
    a candidate term found in the document counts 2 when it stands between
    spaces or string boundaries and 1 otherwise; the two ratios are
    quotients of that total; either ratio under its cutoff gives 0. *)

Module Spec.

Definition candidate_terms (query : string) : list string :=
  expanded_terms_of (query_terms_of (PyStr.lower query)).

Definition word_count (document : Document) : Z :=
  Z.of_nat (List.length (PyStr.split (PyStr.lower (content document)))).

(** [t] is read at the head of [s] and the next character, if any, is a
    space. *)
Fixpoint ends_word (t s : string) : bool :=
  match t with
  | EmptyString =>
      match s with
      | EmptyString => true
      | String c _ => Ascii.eqb c " "
      end
  | String a t' =>
      match s with
      | EmptyString => false
      | String c s' => Ascii.eqb a c && ends_word t' s'
      end
  end.

(** Some occurrence of [t] from here on starts right after a space and
    ends at a space or at the end. *)
Fixpoint delimited_after_space (t s : string) : bool :=
  match s with
  | EmptyString => false
  | String c s' =>
      (Ascii.eqb c " " && ends_word t s') || delimited_after_space t s'
  end.

(** An occurrence of [t] in [s] delimited by spaces or string
    boundaries. *)
Definition boundary_delimited (t s : string) : bool :=
  ends_word t s || delimited_after_space t s.

Definition is_exact_match (doc_lower term : string) : bool :=
  PyStr.contains term doc_lower && boundary_delimited term doc_lower.

Definition is_partial_match (doc_lower term : string) : bool :=
  PyStr.contains term doc_lower && negb (boundary_delimited term doc_lower).

Definition count_if {A : Type} (f : A -> bool) (l : list A) : Z :=
  Z.of_nat (List.length (filter f l)).

Definition total_weighted_matches (document : Document) (query : string)
  : Z :=
  let doc_lower := PyStr.lower (content document) in
  let terms := candidate_terms query in
  (2 * count_if (is_exact_match doc_lower) terms
   + 1 * count_if (is_partial_match doc_lower) terms)%Z.

Definition query_coverage (document : Document) (query : string) : Q :=
  inject_Z (total_weighted_matches document query)
  / inject_Z (2 * Z.of_nat (List.length (candidate_terms query))).

Definition matched_density (document : Document) (query : string) : Q :=
  inject_Z (total_weighted_matches document query)
  / inject_Z (word_count document).

Definition score (document : Document) (query persona : string) : Q :=
  let qc := query_coverage document query in
  let md := matched_density document query in
  if Qltb qc 0.3 || Qltb md 0.01 then 0
  else Qmin (0.4 * qc + 0.2 * md
             + topic_bonus_of (PyStr.lower query)
                              (PyStr.lower (content document))
             + keyword_bonus_of (preferred_keywords_of persona)
                                (PyStr.lower (content document))
             + type_bonus_of (preferred_types_of persona)
                             (doc_type document))
            1.

End Spec.

(** ** The store invariant *)

(** Every key of the store is the id of the document stored under it, and
    no key occurs twice. *)
Definition store_wf (s : DocumentStore) : Prop :=
  NoDup (PyDict.keys (store_documents s))
  /\ Forall (fun entry => fst entry = id (snd entry)) (store_documents s).

(** The result returned when nothing scores above the floor. *)
Definition no_relevant_documents (query persona : string) : RetrievalResult :=
  {| documents := [];
     query := query;
     persona := persona;
     total_retrieved := 0;
     retrieval_metadata := [("reason", SStr "no_relevant_documents")] |}.

(** The identifiers of a result, in rank order. *)
Definition result_ids (r : RetrievalResult) : list string :=
  map id (documents r).

(** ** Auxiliary notions used by the statements *)

(** The value the code returns once both cutoffs are passed. *)
Definition combined (d : Document) (q p : string) : Q :=
  py_min (Spec.query_coverage d q * 0.4 + Spec.matched_density d q * 0.2
          + topic_bonus_of (PyStr.lower q) (PyStr.lower (content d))
          + keyword_bonus_of (preferred_keywords_of p)
                             (PyStr.lower (content d))
          + type_bonus_of (preferred_types_of p) (doc_type d))
         1.

(** The document scores above the floor of 0.1. *)
Definition above_floor (query persona : string) (doc : Document) : bool :=
  match calculate_relevance doc query persona with
  | Ok relevance => Qltb 0.1 relevance
  | Raise _ => false
  end.

(** The order of a ranked list: the earlier document scores at least as
    much as the later one. *)
Definition ranks_before (a b : Document) : Prop :=
  relevance_score b <= relevance_score a.

(** Every character of the string is a space for [split]. *)
Fixpoint all_space (s : string) : bool :=
  match s with
  | EmptyString => true
  | String c s' => PyStr.isspace c && all_space s'
  end.

(** ** The scenarios of the specification and boundary inputs *)

Definition scenario_A_query : string := "What is the remote work policy?".
Definition scenario_C_query : string := "zzqqxx nonsense unmatched".

(** A query whose only match in the sample corpus is a document that the
    HR Specialist filter excludes. *)
Definition financial_query : string := "What are the financial results?".

(** A technical document scored exactly 0.7. *)
Definition boundary_doc : Document :=
  {| id := "notes_001";
     content := "Release notes for the quarter";
     doc_type := TECHNICAL;
     metadata := [];
     relevance_score := 0.7 |}.

(** The financial results document with the highest score. *)
Definition top_scored_business_doc : Document :=
  set_relevance_score doc_business_001 1.

(** A document without content. *)
Definition empty_doc : Document :=
  {| id := "empty_001";
     content := EmptyString;
     doc_type := GENERAL;
     metadata := [];
     relevance_score := 0 |}.

(** A second version of the remote work policy, under the same id. *)
Definition revised_policy : Document :=
  {| id := "policy_001";
     content := "Remote Work Policy: Employees may work remotely up to 4 days per week.";
     doc_type := POLICY;
     metadata := [("department", MStr "HR")];
     relevance_score := 0 |}.

(** ** Further functions of [prompt_builder.py] *)

(** [s.split(sep)] for a separator of one character: every occurrence
    cuts, and empty pieces are kept.  [cur] holds the piece being read,
    reversed. *)
Fixpoint split_char_acc (sep : ascii) (s cur : string) : list string :=
  match s with
  | EmptyString => [PyStr.rev cur]
  | String c s' =>
      if Ascii.eqb c sep
      then PyStr.rev cur :: split_char_acc sep s' EmptyString
      else split_char_acc sep s' (String c cur)
  end.

Definition split_char (sep : ascii) (s : string) : list string :=
  split_char_acc sep s EmptyString.

Definition newline : ascii := ascii_of_nat 10.

(** [get_final_prompt_string]: the same f-string as in
    [build_complete_prompt], over the stored components. *)
Definition get_final_prompt_string (components : PromptComponents) : string :=
  final_prompt_of (master_system_prompt components)
                  (role_specific_prompt components)
                  (rag_context components)
                  (user_question components).

(** The values of the dict returned by [analyze_prompt_structure]. *)
Inductive AnalysisVal : Type :=
| AInt (n : Z)
| ALengths (d : PyDict.t Scalar)
| AMetadata (d : PyDict.t PyVal).

Definition analyze_prompt_structure (components : PromptComponents)
  : PyDict.t AnalysisVal :=
  let final_prompt := get_final_prompt_string components in
  [ ("total_characters", AInt (PyStr.len final_prompt));
    ("total_words", AInt (Z.of_nat (List.length (PyStr.split final_prompt))));
    ("line_count",
     AInt (Z.of_nat (List.length (split_char newline final_prompt))));
    ("components",
     ALengths
       [ ("master_prompt_length",
          SInt (PyStr.len (master_system_prompt components)));
         ("role_prompt_length",
          SInt (PyStr.len (role_specific_prompt components)));
         ("rag_context_length", SInt (PyStr.len (rag_context components)));
         ("question_length", SInt (PyStr.len (user_question components))) ]);
    ("metadata", AMetadata (prompt_metadata components)) ].

(** ** Auxiliary notions of the further properties *)

(** The score of a document, as a number. *)
Definition relevance_of (d : Document) (query persona : string) : Q :=
  match calculate_relevance d query persona with
  | Ok relevance => relevance
  | Raise _ => 0
  end.

(** The documents of a store after the scoring loop of a retrieval. *)
Definition rescore (docs : PyDict.t Document) (query persona : string)
  : PyDict.t Document :=
  map (fun entry =>
         (fst entry,
          set_relevance_score (snd entry)
                              (relevance_of (snd entry) query persona)))
      docs.

(** The documents that stay after the floor of 0.1. *)
Definition above_floor_docs (docs : PyDict.t Document) : list Document :=
  filter (fun d => Qltb 0.1 (relevance_score d)) (PyDict.values docs).

(** The document with its content in lower case. *)
Definition lowered (d : Document) : Document :=
  {| id := id d; content := PyStr.lower (content d);
     doc_type := doc_type d; metadata := metadata d;
     relevance_score := relevance_score d |}.

(** A token of the query that the scorer drops. *)
Definition dropped_token (term : string) : bool :=
  PyList.mem_string term common_words
  || (PyStr.len (PyStr.strip term "?.!") <=? 2)%Z.

(** Occurrences of a character in a string. *)
Fixpoint count_char (c : ascii) (s : string) : nat :=
  match s with
  | EmptyString => 0%nat
  | String a s' => ((if Ascii.eqb a c then 1 else 0) + count_char c s')%nat
  end.

(** Number of words and of lines of a string, as [analyze_prompt_structure]
    counts them. *)
Definition words_of (s : string) : Z :=
  Z.of_nat (List.length (PyStr.split s)).

Definition lines_of (s : string) : Z :=
  Z.of_nat (List.length (split_char newline s)).

(** The document gets past the empty-set test and the two cutoffs. *)
Definition passes_cutoffs (d : Document) (q : string) : bool :=
  match Spec.candidate_terms q with
  | [] => false
  | _ :: _ =>
      negb (Qltb (Spec.query_coverage d q) 0.3)
      && negb (Spec.word_count d =? 0)%Z
      && negb (Qltb (Spec.matched_density d q) 0.01)
  end.

(** A store document given the score of the current query. *)
Definition scored_copy (d0 : Document) (query persona : string) : Document :=
  set_relevance_score d0 (relevance_of d0 query persona).

(** * Properties *)

(** ** Comparisons and the error monad *)

Lemma Qltb_lt (x y : Q) : Qltb x y = true <-> x < y.
Proof.
  unfold Qltb. rewrite negb_true_iff. split.
  - intros H. apply Qnot_le_lt. intros Hle.
    apply Qle_bool_iff in Hle. congruence.
  - intros H. destruct (Qle_bool y x) eqn:E; [|reflexivity].
    apply Qle_bool_iff in E. exfalso. exact (Qlt_not_le _ _ H E).
Qed.

Lemma Qltb_ge (x y : Q) : Qltb x y = false <-> y <= x.
Proof.
  unfold Qltb. rewrite negb_false_iff. apply Qle_bool_iff.
Qed.

Lemma py_min_Qmin (a b : Q) : py_min a b == Qmin a b.
Proof.
  unfold py_min. destruct (Qltb b a) eqn:E.
  - apply Qltb_lt in E. symmetry. apply Q.min_r. apply Qlt_le_weak, E.
  - apply Qltb_ge in E. symmetry. apply Q.min_l. exact E.
Qed.

Lemma py_min_le_r (a b : Q) : py_min a b <= b.
Proof. rewrite py_min_Qmin. apply Q.le_min_r. Qed.

Lemma py_min_ge (a b c : Q) : c <= a -> c <= b -> c <= py_min a b.
Proof.
  intros Ha Hb. unfold py_min. destruct (Qltb b a); assumption.
Qed.

Lemma truediv_pos (a b : Z) :
  (0 < b)%Z -> truediv a b = Ok (inject_Z a / inject_Z b).
Proof.
  intros Hb. unfold truediv.
  destruct (Z.eqb_spec b 0); [lia | reflexivity].
Qed.

Lemma Qdiv_nonneg (a b : Z) :
  (0 <= a)%Z -> (0 < b)%Z -> 0 <= inject_Z a / inject_Z b.
Proof.
  intros Ha Hb.
  apply Qle_shift_div_l.
  - change 0 with (inject_Z 0). rewrite <- Zlt_Qlt. exact Hb.
  - rewrite Qmult_0_l. change 0 with (inject_Z 0). rewrite <- Zle_Qle.
    exact Ha.
Qed.

(** ** Strings *)

Section StringFacts.

Lemma prefix_cons (a b : ascii) (s t : string) :
  prefix (String a s) (String b t) = Ascii.eqb a b && prefix s t.
Proof.
  simpl. destruct (ascii_dec a b) as [->|Hne].
  - now rewrite Ascii.eqb_refl.
  - apply Ascii.eqb_neq in Hne. now rewrite Hne.
Qed.

Lemma prefix_nil_r (s : string) :
  prefix s EmptyString = true -> s = EmptyString.
Proof. destruct s; simpl; [reflexivity | discriminate]. Qed.

Lemma prefix_app (s r : string) : prefix s (s ++ r) = true.
Proof.
  induction s as [|a s IH]; simpl.
  - now destruct r.
  - destruct (ascii_dec a a); [exact IH | congruence].
Qed.

Lemma prefix_split (s t : string) :
  prefix s t = true -> exists r, t = s ++ r.
Proof.
  revert t. induction s as [|a s IH]; intros t H.
  - now exists t.
  - destruct t as [|b t]; [discriminate|].
    rewrite prefix_cons in H. apply andb_true_iff in H as [Hab H].
    apply Ascii.eqb_eq in Hab. subst b.
    destruct (IH _ H) as [r ->]. now exists r.
Qed.

Lemma append_nil_r (s : string) : s ++ EmptyString = s.
Proof. induction s; simpl; congruence. Qed.

Lemma append_assoc (s t u : string) : (s ++ t) ++ u = s ++ (t ++ u).
Proof. induction s; simpl; congruence. Qed.

Lemma rev_acc_app (s acc : string) :
  PyStr.rev_acc s acc = PyStr.rev s ++ acc.
Proof.
  unfold PyStr.rev. revert acc.
  induction s as [|c s IH]; intros acc; simpl; [reflexivity|].
  rewrite (IH (String c EmptyString)), IH, append_assoc. reflexivity.
Qed.

Lemma rev_cons (c : ascii) (s : string) :
  PyStr.rev (String c s) = PyStr.rev s ++ String c EmptyString.
Proof. unfold PyStr.rev at 1. simpl. apply rev_acc_app. Qed.

Lemma rev_app (s t : string) :
  PyStr.rev (s ++ t) = PyStr.rev t ++ PyStr.rev s.
Proof.
  induction s as [|c s IH]; simpl.
  - now rewrite append_nil_r.
  - now rewrite !rev_cons, IH, append_assoc.
Qed.

Lemma rev_involutive (s : string) : PyStr.rev (PyStr.rev s) = s.
Proof.
  induction s as [|c s IH]; [reflexivity|].
  rewrite rev_cons, rev_app, IH. reflexivity.
Qed.

(** [endswith] holds exactly of the strings that end in the suffix. *)
Lemma endswith_split (s t : string) :
  PyStr.endswith s t = true -> exists l, s = l ++ t.
Proof.
  unfold PyStr.endswith. intros H.
  destruct (prefix_split _ _ H) as [r Hr].
  exists (PyStr.rev r).
  rewrite <- (rev_involutive s), Hr, rev_app, rev_involutive.
  reflexivity.
Qed.

End StringFacts.

(** ** Exact matches are the boundary-delimited occurrences *)

Section ExactPhrase.

Lemma prefix_space_ends_word (t s : string) :
  prefix (t ++ " ") (s ++ " ") = Spec.ends_word t s.
Proof.
  revert s. induction t as [|a t IH]; intros s.
  - destruct s as [|c s]; [reflexivity|].
    change (prefix (String " " EmptyString) (String c (s ++ " ")) =
            Ascii.eqb c " ").
    rewrite prefix_cons, Ascii.eqb_sym.
    destruct (s ++ " "); simpl; apply andb_true_r.
  - destruct s as [|c s].
    + change (prefix (String a (t ++ " ")) (String " " EmptyString) = false).
      rewrite prefix_cons.
      destruct (prefix (t ++ " ") EmptyString) eqn:E.
      * apply prefix_nil_r in E. destruct t; discriminate.
      * apply andb_false_r.
    + change (prefix (String a (t ++ " ")) (String c (s ++ " ")) =
              Ascii.eqb a c && Spec.ends_word t s).
      rewrite prefix_cons, IH. reflexivity.
Qed.

Lemma contains_padded_tail (t s : string) :
  PyStr.contains (String " " (t ++ " ")) (s ++ " ")
  = Spec.delimited_after_space t s.
Proof.
  induction s as [|c s IH].
  - change (PyStr.contains (String " " (t ++ " ")) (String " " EmptyString)
            = false).
    cbn [PyStr.contains]. rewrite prefix_cons.
    destruct (prefix (t ++ " ") EmptyString) eqn:E.
    + apply prefix_nil_r in E. destruct t; discriminate.
    + reflexivity.
  - change (PyStr.contains (String " " (t ++ " ")) (String c (s ++ " "))
            = (Ascii.eqb c " " && Spec.ends_word t s)
              || Spec.delimited_after_space t s).
    cbn [PyStr.contains]. rewrite prefix_cons, prefix_space_ends_word, IH.
    rewrite (Ascii.eqb_sym " " c).
    destruct (Ascii.eqb c " " && Spec.ends_word t s); reflexivity.
Qed.

Lemma contains_padded (t s : string) :
  PyStr.contains (" " ++ t ++ " ") (" " ++ s ++ " ")
  = Spec.boundary_delimited t s.
Proof.
  change (PyStr.contains (String " " (t ++ " ")) (String " " (s ++ " "))
          = Spec.boundary_delimited t s).
  cbn [PyStr.contains].
  rewrite prefix_cons, prefix_space_ends_word, contains_padded_tail.
  unfold Spec.boundary_delimited. rewrite Ascii.eqb_refl. cbn [andb].
  destruct (Spec.ends_word t s); reflexivity.
Qed.

Lemma ends_word_prefix (t r : string) :
  Spec.ends_word t (t ++ " " ++ r) = true.
Proof.
  induction t as [|a t IH]; [reflexivity|].
  cbn [append Spec.ends_word]. now rewrite Ascii.eqb_refl.
Qed.

Lemma ends_word_self (t : string) : Spec.ends_word t t = true.
Proof.
  induction t as [|a t IH]; [reflexivity|].
  cbn [Spec.ends_word]. now rewrite Ascii.eqb_refl.
Qed.

Lemma delimited_suffix (l t : string) :
  Spec.delimited_after_space t (l ++ " " ++ t) = true.
Proof.
  induction l as [|c l IH].
  - change (Spec.delimited_after_space t (String " " t) = true).
    cbn [Spec.delimited_after_space].
    now rewrite Ascii.eqb_refl, ends_word_self.
  - change (Spec.delimited_after_space t (String c (l ++ " " ++ t)) = true).
    cbn [Spec.delimited_after_space]. rewrite IH. apply orb_true_r.
Qed.

(** The test of the code and the wording of the specification agree on
    every term and every document. *)
Lemma exact_phrase_boundary (t s : string) :
  exact_phrase t s = Spec.boundary_delimited t s.
Proof.
  unfold exact_phrase. rewrite contains_padded.
  destruct (Spec.boundary_delimited t s) eqn:E; [reflexivity|].
  cbn [orb].
  destruct (PyStr.startswith s (t ++ " ")) eqn:Hs.
  - unfold PyStr.startswith in Hs.
    destruct (prefix_split _ _ Hs) as [r ->].
    unfold Spec.boundary_delimited in E.
    rewrite append_assoc in E. now rewrite ends_word_prefix in E.
  - cbn [orb]. destruct (PyStr.endswith s (" " ++ t)) eqn:He; [|reflexivity].
    destruct (endswith_split _ _ He) as [l ->].
    unfold Spec.boundary_delimited in E.
    rewrite delimited_suffix in E. now rewrite orb_true_r in E.
Qed.

End ExactPhrase.

(** ** The matching loop computes the weighted count *)

Section Matching.

Variable doc_lower : string.

Lemma count_if_cons {A : Type} (f : A -> bool) (x : A) (l : list A) :
  Spec.count_if f (x :: l)
  = ((if f x then 1 else 0) + Spec.count_if f l)%Z.
Proof.
  unfold Spec.count_if. cbn [filter].
  destruct (f x); cbn [List.length]; lia.
Qed.

Lemma count_if_nonneg {A : Type} (f : A -> bool) (l : list A) :
  (0 <= Spec.count_if f l)%Z.
Proof. unfold Spec.count_if. lia. Qed.

Lemma count_if_le_length {A : Type} (f : A -> bool) (l : list A) :
  (Spec.count_if f l <= Z.of_nat (List.length l))%Z.
Proof.
  unfold Spec.count_if. apply Nat2Z.inj_le, filter_length_le.
Qed.

Lemma count_loop (terms : list string) (exact_matches partial_matches : Z) :
  fold_left (count_term doc_lower) terms (exact_matches, partial_matches)
  = ((exact_matches
      + 2 * Spec.count_if (Spec.is_exact_match doc_lower) terms)%Z,
     (partial_matches
      + Spec.count_if (Spec.is_partial_match doc_lower) terms)%Z).
Proof.
  revert exact_matches partial_matches.
  induction terms as [|term terms IH]; intros e p.
  - cbn. f_equal; lia.
  - cbn [fold_left]. rewrite !count_if_cons.
    assert (He : Spec.is_exact_match doc_lower term
                 = PyStr.contains term doc_lower
                   && exact_phrase term doc_lower)
      by (unfold Spec.is_exact_match; now rewrite exact_phrase_boundary).
    assert (Hp : Spec.is_partial_match doc_lower term
                 = PyStr.contains term doc_lower
                   && negb (exact_phrase term doc_lower))
      by (unfold Spec.is_partial_match; now rewrite exact_phrase_boundary).
    rewrite He, Hp. unfold count_term at 2.
    destruct (PyStr.contains term doc_lower);
      [destruct (exact_phrase term doc_lower)|];
      cbn [andb negb]; rewrite IH; f_equal; lia.
Qed.

Lemma count_matches_total (terms : list string) :
  (let '(exact_matches, partial_matches) :=
     count_matches doc_lower terms in
   (exact_matches + partial_matches)%Z)
  = (2 * Spec.count_if (Spec.is_exact_match doc_lower) terms
     + 1 * Spec.count_if (Spec.is_partial_match doc_lower) terms)%Z.
Proof. unfold count_matches. rewrite count_loop. lia. Qed.

End Matching.

Lemma total_weighted_matches_nonneg (d : Document) (q : string) :
  (0 <= Spec.total_weighted_matches d q)%Z.
Proof.
  unfold Spec.total_weighted_matches.
  pose proof (count_if_nonneg
                (Spec.is_exact_match (PyStr.lower (content d)))
                (Spec.candidate_terms q)).
  pose proof (count_if_nonneg
                (Spec.is_partial_match (PyStr.lower (content d)))
                (Spec.candidate_terms q)).
  lia.
Qed.

(** ** Sets of terms kept as lists *)

Section TermSets.

Lemma mem_string_In (x : string) (l : list string) :
  PyList.mem_string x l = true <-> In x l.
Proof.
  unfold PyList.mem_string. rewrite existsb_exists. split.
  - intros [y [Hy E]]. apply String.eqb_eq in E. now subst.
  - intros H. exists x. split; [exact H | apply String.eqb_refl].
Qed.

Lemma NoDup_set_add (x : string) (l : list string) :
  NoDup l -> NoDup (PyList.set_add x l).
Proof.
  intros Hl. unfold PyList.set_add.
  destruct (PyList.mem_string x l) eqn:E; [exact Hl|].
  apply NoDup_app; [exact Hl | constructor; [intros [] | constructor] |].
  intros y Hy [<-|[]]. apply mem_string_In in Hy. congruence.
Qed.

Lemma NoDup_fold (f : list string -> string -> list string)
  (l acc : list string) :
  (forall a x, NoDup a -> NoDup (f a x)) ->
  NoDup acc -> NoDup (fold_left f l acc).
Proof.
  intros Hf. revert acc.
  induction l as [|x l IH]; intros acc Hacc; [exact Hacc|].
  cbn [fold_left]. apply IH, Hf, Hacc.
Qed.

Lemma NoDup_expand_term (acc : list string) (term : string) :
  NoDup acc -> NoDup (expand_term acc term).
Proof.
  intros H. unfold expand_term.
  destruct (PyStr.endswith term "ies"); [now apply NoDup_set_add|].
  destruct (PyStr.endswith term "s"); cbn [negb];
    now apply NoDup_set_add.
Qed.

(** The list of candidate terms has no repetition: its length is the size
    of the set. *)
Lemma NoDup_expanded_terms (query_terms : list string) :
  NoDup (expanded_terms_of query_terms).
Proof.
  unfold expanded_terms_of, PyList.set_of_list.
  apply NoDup_fold; [apply NoDup_expand_term|].
  apply NoDup_fold; [|constructor].
  intros a x Ha. now apply NoDup_set_add.
Qed.

Lemma count_if_perm {A : Type} (f : A -> bool) (l l' : list A) :
  Permutation l l' -> Spec.count_if f l = Spec.count_if f l'.
Proof.
  induction 1 as [|x l l' _ IH|x y l|l l' l'' _ IH1 _ IH2].
  - reflexivity.
  - rewrite !count_if_cons. lia.
  - rewrite !count_if_cons. lia.
  - congruence.
Qed.

(** The counts do not depend on the order in which the set of terms is
    walked. *)
Lemma count_matches_perm (doc_lower : string) (l l' : list string) :
  Permutation l l' -> count_matches doc_lower l = count_matches doc_lower l'.
Proof.
  intros H. unfold count_matches. rewrite !count_loop.
  now rewrite (count_if_perm _ _ _ H),
    (count_if_perm (Spec.is_partial_match doc_lower) _ _ H).
Qed.

End TermSets.

(** ** The scorer, case by case *)

Lemma calculate_relevance_unfold (d : Document) (q p : string) :
  calculate_relevance d q p =
  match Spec.candidate_terms q with
  | [] => Ok 0
  | _ :: _ =>
      if Qltb (Spec.query_coverage d q) 0.3 then Ok 0
      else if (Spec.word_count d =? 0)%Z then Ok 0
      else if Qltb (Spec.matched_density d q) 0.01 then Ok 0
      else Ok (combined d q p)
  end.
Proof.
  unfold calculate_relevance, combined, Spec.query_coverage,
    Spec.matched_density, Spec.total_weighted_matches, Spec.word_count.
  fold (Spec.candidate_terms q).
  destruct (Spec.candidate_terms q) as [|t ts] eqn:Et; [reflexivity|].
  rewrite <- Et.
  pose proof (count_matches_total (PyStr.lower (content d))
                                  (Spec.candidate_terms q)) as Hc.
  destruct (count_matches (PyStr.lower (content d)) (Spec.candidate_terms q))
    as [e pm].
  rewrite Hc. clear Hc.
  rewrite truediv_pos by (rewrite Et; cbn [List.length]; lia).
  cbn [bind]. rewrite (Z.mul_comm _ 2).
  destruct (Qltb _ 0.3); [reflexivity|].
  unfold truediv.
  destruct (Z.of_nat (List.length (PyStr.split (PyStr.lower (content d))))
            =? 0)%Z; reflexivity.
Qed.

(** ** Bounds of the parts of the score *)

Lemma topic_bonus_nonneg (ql dl : string) : 0 <= topic_bonus_of ql dl.
Proof.
  unfold topic_bonus_of.
  destruct (topic_hit "authentication" ql dl), (topic_hit "system" ql dl),
    (topic_hit "jwt" ql dl), (topic_hit "token" ql dl),
    (topic_hit "cybersecurity" ql dl); discriminate.
Qed.

Lemma keyword_bonus_nonneg (keywords : list string) (dl : string) :
  0 <= keyword_bonus_of keywords dl.
Proof.
  unfold keyword_bonus_of.
  assert (H : forall acc, 0 <= acc ->
            0 <= fold_left
                   (fun keyword_bonus keyword =>
                      if PyStr.contains (PyStr.lower keyword) dl
                      then keyword_bonus + 0.1 else keyword_bonus)
                   keywords acc).
  { induction keywords as [|k ks IH]; intros acc Hacc; [exact Hacc|].
    cbn [fold_left]. apply IH.
    destruct (PyStr.contains (PyStr.lower k) dl); [|exact Hacc].
    apply (Qle_trans _ (acc + 0)).
    - now rewrite Qplus_0_r.
    - apply Qplus_le_r. discriminate. }
  apply H. apply Qle_refl.
Qed.

Lemma type_bonus_nonneg (types : list DocumentType) (t : DocumentType) :
  0 <= type_bonus_of types t.
Proof. unfold type_bonus_of. destruct (type_in t types); discriminate. Qed.

Lemma query_coverage_nonneg (d : Document) (q : string) :
  Spec.candidate_terms q <> [] -> 0 <= Spec.query_coverage d q.
Proof.
  intros Hne. apply Qdiv_nonneg.
  - apply total_weighted_matches_nonneg.
  - destruct (Spec.candidate_terms q); [congruence | cbn [List.length]; lia].
Qed.

Lemma matched_density_nonneg (d : Document) (q : string) :
  (Spec.word_count d <> 0)%Z -> 0 <= Spec.matched_density d q.
Proof.
  intros Hne. apply Qdiv_nonneg.
  - apply total_weighted_matches_nonneg.
  - unfold Spec.word_count in *. lia.
Qed.

Lemma Qplus_nonneg (a b : Q) : 0 <= a -> 0 <= b -> 0 <= a + b.
Proof.
  intros Ha Hb. rewrite <- (Qplus_0_r 0). now apply Qplus_le_compat.
Qed.

Lemma Qmult_nonneg (a b : Q) : 0 <= a -> 0 <= b -> 0 <= a * b.
Proof. apply Qmult_le_0_compat. Qed.

Lemma combined_bounds (d : Document) (q p : string) :
  Spec.candidate_terms q <> [] -> (Spec.word_count d <> 0)%Z ->
  0 <= combined d q p /\ combined d q p <= 1.
Proof.
  intros Ht Hw. unfold combined. split; [|apply py_min_le_r].
  apply py_min_ge; [|discriminate].
  repeat apply Qplus_nonneg.
  - apply Qmult_nonneg; [now apply query_coverage_nonneg | discriminate].
  - apply Qmult_nonneg; [now apply matched_density_nonneg | discriminate].
  - apply topic_bonus_nonneg.
  - apply keyword_bonus_nonneg.
  - apply type_bonus_nonneg.
Qed.

(** The scorer returns on every input: both divisions have a non-zero
    divisor when they are reached. *)
Lemma calculate_relevance_returns (d : Document) (q p : string) :
  returns (calculate_relevance d q p).
Proof.
  rewrite calculate_relevance_unfold. unfold returns.
  destruct (Spec.candidate_terms q); [eauto|].
  destruct (Qltb (Spec.query_coverage d q) 0.3); [eauto|].
  destruct (Spec.word_count d =? 0)%Z; [eauto|].
  destruct (Qltb (Spec.matched_density d q) 0.01); eauto.
Qed.

(** ** Sorting, slicing and the persona filter *)

Section FilterFacts.

Lemma In_insert_desc (x d : Document) (l : list Document) :
  In x (insert_desc d l) <-> x = d \/ In x l.
Proof.
  induction l as [|e l IH]; cbn [insert_desc].
  - cbn. intuition congruence.
  - destruct (Qltb (relevance_score d) (relevance_score e)).
    + cbn [In]. rewrite IH. intuition congruence.
    + cbn [In]. intuition congruence.
Qed.

Lemma In_sort_desc (x : Document) (l : list Document) :
  In x (sort_desc l) <-> In x l.
Proof.
  induction l as [|d l IH]; [reflexivity|].
  cbn [sort_desc fold_right]. fold (sort_desc l).
  rewrite In_insert_desc, IH. cbn [In]. intuition congruence.
Qed.

Lemma length_insert_desc (d : Document) (l : list Document) :
  List.length (insert_desc d l) = S (List.length l).
Proof.
  induction l as [|e l IH]; [reflexivity|].
  cbn [insert_desc].
  destruct (Qltb (relevance_score d) (relevance_score e));
    cbn [List.length]; congruence.
Qed.

Lemma sort_desc_nil (l : list Document) : sort_desc l = [] -> l = [].
Proof.
  destruct l as [|d l]; [reflexivity|].
  cbn [sort_desc fold_right]. fold (sort_desc l). intros H.
  apply (f_equal (@List.length Document)) in H.
  rewrite length_insert_desc in H. discriminate.
Qed.

Lemma insert_desc_perm (d : Document) (l : list Document) :
  Permutation (insert_desc d l) (d :: l).
Proof.
  induction l as [|e l IH]; [reflexivity|].
  cbn [insert_desc].
  destruct (Qltb (relevance_score d) (relevance_score e)); [|reflexivity].
  rewrite IH. apply perm_swap.
Qed.

Lemma sort_desc_perm (l : list Document) : Permutation (sort_desc l) l.
Proof.
  induction l as [|d l IH]; [reflexivity|].
  cbn [sort_desc fold_right]. fold (sort_desc l).
  rewrite insert_desc_perm. now constructor.
Qed.

Lemma HdRel_insert_desc (e d : Document) (l : list Document) :
  ranks_before e d -> HdRel ranks_before e l ->
  HdRel ranks_before e (insert_desc d l).
Proof.
  intros Hed Hl. destruct l as [|x l]; cbn [insert_desc].
  - now constructor.
  - destruct (Qltb (relevance_score d) (relevance_score x)).
    + inversion Hl; subst. now constructor.
    + now constructor.
Qed.

Lemma insert_desc_sorted (d : Document) (l : list Document) :
  Sorted ranks_before l -> Sorted ranks_before (insert_desc d l).
Proof.
  induction 1 as [|e l Hs IH Hhd]; cbn [insert_desc].
  - repeat constructor.
  - destruct (Qltb (relevance_score d) (relevance_score e)) eqn:E.
    + constructor; [exact IH|].
      apply HdRel_insert_desc; [|exact Hhd].
      apply Qltb_lt in E. unfold ranks_before. now apply Qlt_le_weak.
    + apply Qltb_ge in E. repeat constructor; assumption.
Qed.

(** The sort ranks by descending score. *)
Lemma sort_desc_sorted (l : list Document) : Sorted ranks_before (sort_desc l).
Proof.
  induction l as [|d l IH]; [constructor|].
  cbn [sort_desc fold_right]. fold (sort_desc l).
  now apply insert_desc_sorted.
Qed.

Lemma In_firstn {A : Type} (x : A) (n : nat) (l : list A) :
  In x (firstn n l) -> In x l.
Proof.
  revert l. induction n as [|n IH]; intros l H; [destruct H|].
  destruct l as [|a l]; [destruct H|].
  cbn [firstn In] in *. destruct H as [H|H]; [now left|right; auto].
Qed.

Lemma In_slice_to {A : Type} (x : A) (k : Z) (l : list A) :
  In x (PyList.slice_to k l) -> In x l.
Proof.
  unfold PyList.slice_to. destruct (0 <=? k)%Z; apply In_firstn.
Qed.

(** A document of the output went through every test of the loop. *)
Lemma filter_documents_kept (docs : list Document) (persona : string)
  (filters : PersonaFilter) (doc : Document) :
  PyDict.get persona persona_filters = Some filters ->
  In doc (filter_documents docs persona) ->
  In doc docs /\ filter_keeps filters doc = true.
Proof.
  intros Hf Hin. unfold filter_documents in Hin. rewrite Hf in Hin.
  apply In_slice_to, In_sort_desc, filter_In in Hin. exact Hin.
Qed.

End FilterFacts.

(** ** The retriever returns *)

Section Retrieval.

Variables query persona : string.

Lemma score_documents_returns (docs : PyDict.t Document) :
  exists docs' scored_docs,
    score_documents docs query persona = Ok (docs', scored_docs)
    /\ PyDict.keys docs' = PyDict.keys docs
    /\ map (fun entry => id (snd entry)) docs'
       = map (fun entry => id (snd entry)) docs
    /\ (scored_docs = [] <->
        existsb (above_floor query persona) (PyDict.values docs) = false).
Proof.
  induction docs as [|[key doc] rest IH].
  - exists [], []. repeat split; reflexivity.
  - destruct IH as (rest' & scored & Hrest & Hkeys & Hids & Hnil).
    cbn [score_documents].
    destruct (calculate_relevance_returns doc query persona) as [v Hv].
    rewrite Hv, Hrest. cbn [bind].
    eexists. eexists. split; [reflexivity|].
    unfold PyDict.keys, PyDict.values in *.
    cbn [map fst snd existsb].
    unfold above_floor at 1. rewrite Hv.
    repeat split.
    + now rewrite Hkeys.
    + cbn [id set_relevance_score]. now rewrite Hids.
    + destruct (Qltb 0.1 v); [discriminate|]. cbn [orb]. apply Hnil.
    + destruct (Qltb 0.1 v); [discriminate|]. cbn [orb]. apply Hnil.
Qed.

Lemma avg_relevance_returns (docs : list Document) :
  avg_relevance docs
  = Ok (match docs with
        | [] => SInt 0
        | _ :: _ =>
            SFloat (sum_scores docs / inject_Z (Z.of_nat (List.length docs)))
        end).
Proof.
  destruct docs as [|d docs]; [reflexivity|].
  unfold avg_relevance, fdiv.
  destruct (Z.eqb_spec (Z.of_nat (List.length (d :: docs))) 0) as [E|_];
    [cbn [List.length] in E; lia | reflexivity].
Qed.

(** The shape of every retrieval: it returns, the store keeps its keys and
    ids, and the metadata is the reason code when nothing scores above
    the floor and the average of the returned set otherwise. *)
Lemma retrieve_documents_shape (store : DocumentStore) (top_k : Z) :
  exists r store',
    retrieve_documents store query persona top_k = Ok (r, store')
    /\ PyDict.keys (store_documents store')
       = PyDict.keys (store_documents store)
    /\ map (fun entry => id (snd entry)) (store_documents store')
       = map (fun entry => id (snd entry)) (store_documents store)
    /\ (if existsb (above_floor query persona) (get_all_documents store)
        then retrieval_metadata r
             = [("avg_relevance",
                 match documents r with
                 | [] => SInt 0
                 | _ :: _ =>
                     SFloat (sum_scores (documents r)
                             / inject_Z (Z.of_nat
                                           (List.length (documents r))))
                 end)]
        else r = no_relevant_documents query persona).
Proof.
  unfold retrieve_documents, get_all_documents.
  destruct (score_documents_returns (store_documents store))
    as (docs' & scored & Hs & Hkeys & Hids & Hnil).
  rewrite Hs. cbn [bind].
  destruct scored as [|d scored].
  - eexists. eexists. split; [reflexivity|].
    cbn [store_documents]. repeat split; try assumption.
    destruct Hnil as [Hnil _]. now rewrite Hnil.
  - rewrite avg_relevance_returns. cbn [bind].
    eexists. eexists. split; [reflexivity|].
    cbn [store_documents documents retrieval_metadata].
    repeat split; try assumption.
    destruct (existsb (above_floor query persona)
                      (PyDict.values (store_documents store))) eqn:E.
    + reflexivity.
    + destruct Hnil as [_ Hnil]. specialize (Hnil eq_refl). discriminate.
Qed.

Lemma retrieve_documents_returns (store : DocumentStore) (top_k : Z) :
  returns (retrieve_documents store query persona top_k).
Proof.
  destruct (retrieve_documents_shape store top_k) as (r & s & H & _).
  now exists (r, s).
Qed.

End Retrieval.

(** ** Words of a document *)

Section Words.

Lemma isspace_lower_char (c : ascii) :
  PyStr.isspace (PyStr.lower_char c) = PyStr.isspace c.
Proof. destruct c as [[] [] [] [] [] [] [] []]; reflexivity. Qed.

Lemma all_space_lower (s : string) :
  all_space (PyStr.lower s) = all_space s.
Proof.
  induction s as [|c s IH]; [reflexivity|].
  cbn [PyStr.lower all_space]. now rewrite isspace_lower_char, IH.
Qed.

Lemma split_acc_nil (s cur : string) :
  PyStr.split_acc s cur = [] <-> cur = EmptyString /\ all_space s = true.
Proof.
  revert cur. induction s as [|c s IH]; intros cur.
  - cbn. destruct cur; split; intros H; try discriminate; auto.
    destruct H; discriminate.
  - cbn [PyStr.split_acc all_space].
    destruct (PyStr.isspace c); cbn [andb].
    + destruct cur.
      * rewrite IH. tauto.
      * split; [discriminate | intros [H _]; discriminate].
    + rewrite IH. split; [intros [H _]; discriminate|].
      intros [_ H]. discriminate.
Qed.

Lemma split_lower_nil (s : string) :
  PyStr.split s = [] -> PyStr.split (PyStr.lower s) = [].
Proof.
  unfold PyStr.split. rewrite !split_acc_nil, all_space_lower. tauto.
Qed.

End Words.

(** ** Rationals up to representation *)

Lemma Qmult_comm_eq (x y : Q) : x * y = y * x.
Proof.
  unfold Qmult. f_equal; [apply Z.mul_comm | apply Pos.mul_comm].
Qed.

Lemma py_min_eq_Qmin (a b : Q) : py_min a b = Qmin a b.
Proof.
  unfold py_min, Qltb, Qle_bool, Qmin, GenericMinMax.gmin, Qcompare, Z.leb.
  destruct (Qnum a * QDen b ?= Qnum b * QDen a)%Z; reflexivity.
Qed.

(** ** The dict behind the store *)

Section DictFacts.

Context {V : Type}.
Implicit Types (d : PyDict.t V) (k : string) (v : V).

Lemma get_set_same k v d : PyDict.get k (PyDict.set k v d) = Some v.
Proof.
  induction d as [|[k' v'] d IH]; cbn [PyDict.set PyDict.get].
  - now rewrite String.eqb_refl.
  - destruct (String.eqb k k') eqn:E; cbn [PyDict.get].
    + now rewrite String.eqb_refl.
    + now rewrite E.
Qed.

Lemma In_keys_set k v d k0 :
  In k0 (PyDict.keys (PyDict.set k v d)) <-> k0 = k \/ In k0 (PyDict.keys d).
Proof.
  unfold PyDict.keys.
  induction d as [|[k' v'] d IH]; cbn [PyDict.set map fst In].
  - intuition congruence.
  - destruct (String.eqb_spec k k') as [->|Hne]; cbn [map fst In].
    + intuition congruence.
    + rewrite IH. intuition congruence.
Qed.

Lemma NoDup_keys_set k v d :
  NoDup (PyDict.keys d) -> NoDup (PyDict.keys (PyDict.set k v d)).
Proof.
  induction d as [|[k' v'] d IH]; intros Hnd.
  - cbn. constructor; [intros [] | constructor].
  - cbn [PyDict.set]. inversion Hnd as [|? ? Hnotin Hnd']; subst.
    destruct (String.eqb_spec k k') as [->|Hne].
    + constructor; assumption.
    + change (NoDup (k' :: PyDict.keys (PyDict.set k v d))).
      constructor; [|apply IH, Hnd'].
      rewrite In_keys_set. intros [E|Hin]; [congruence | contradiction].
Qed.

Lemma Forall_set (P : string * V -> Prop) k v d :
  P (k, v) -> Forall P d -> Forall P (PyDict.set k v d).
Proof.
  intros Hkv. induction 1 as [|[k' v'] d Hx Hd IH]; cbn [PyDict.set].
  - constructor; [exact Hkv | constructor].
  - destruct (String.eqb k k'); constructor; assumption.
Qed.

Lemma length_set_present k v d :
  PyDict.get k d <> None ->
  List.length (PyDict.set k v d) = List.length d.
Proof.
  induction d as [|[k' v'] d IH]; cbn [PyDict.get PyDict.set].
  - congruence.
  - destruct (String.eqb k k'); cbn [List.length]; auto.
Qed.

End DictFacts.

(** ** The store invariant *)

Lemma wf_ids (l : PyDict.t Document) :
  Forall (fun entry => fst entry = id (snd entry)) l
  <-> PyDict.keys l = map (fun entry => id (snd entry)) l.
Proof.
  unfold PyDict.keys. induction l as [|e l IH]; cbn [map].
  - split; [reflexivity | constructor].
  - split.
    + intros H. inversion H; subst. f_equal; [assumption | now apply IH].
    + intros H. injection H as H1 H2. constructor; [assumption | now apply IH].
Qed.

Lemma store_wf_unique_ids (s : DocumentStore) :
  store_wf s -> NoDup (map id (get_all_documents s)).
Proof.
  intros [Hnd Hids]. unfold get_all_documents, PyDict.values.
  rewrite map_map. apply wf_ids in Hids. now rewrite <- Hids.
Qed.

Lemma store_wf_add (s : DocumentStore) (d : Document) :
  store_wf s -> store_wf (add_document s d).
Proof.
  intros [Hnd Hids]. split; cbn [add_document store_documents].
  - now apply NoDup_keys_set.
  - now apply Forall_set.
Qed.

Lemma store_wf_empty : store_wf {| store_documents := [] |}.
Proof. split; constructor. Qed.

Lemma store_wf_fold (docs : list Document) (s : DocumentStore) :
  store_wf s -> store_wf (fold_left add_document docs s).
Proof.
  revert s. induction docs as [|d docs IH]; intros s Hs; [exact Hs|].
  cbn [fold_left]. apply IH, store_wf_add, Hs.
Qed.

Lemma store_wf_initial : store_wf initial_store.
Proof. apply store_wf_fold, store_wf_empty. Qed.

Lemma store_wf_retrieve (s s' : DocumentStore) (q p : string) (k : Z)
  (r : RetrievalResult) :
  store_wf s -> retrieve_documents s q p k = Ok (r, s') -> store_wf s'.
Proof.
  intros [Hnd Hids] H.
  destruct (retrieve_documents_shape q p s k)
    as (r0 & s0 & H0 & Hkeys & Hid & _).
  rewrite H in H0. injection H0 as <- <-.
  split.
  - now rewrite Hkeys.
  - apply wf_ids. rewrite Hkeys, Hid. now apply wf_ids.
Qed.

(** * The claims *)

(** ** Entry points and exceptions *)

(** C1.  [retrieve_documents] returns a [RetrievalResult] for every store,
    query, persona and [top_k].  [build_complete_prompt] does not: for every
    builder, question and persona of the closed set it raises
    [AttributeError], because it reads the attribute [total_docs_found],
    which a [RetrievalResult] does not have. *)
Theorem build_complete_prompt_raises :
  (forall (self : CompletePromptBuilder) (question : string) (p : Persona.t),
      fst (build_complete_prompt self question p)
      = Raise (AttributeError "total_docs_found"))
  /\ (forall (store : DocumentStore) (q p : string) (top_k : Z),
         returns (retrieve_documents store q p top_k)).
Proof.
  split.
  - intros self question p.
    unfold build_complete_prompt, build_rag_context_prompt.
    cbn [doc_store].
    destruct (retrieve_documents_returns question (Persona.value p)
                                         (doc_store self) 10)
      as [[r s] Hr].
    rewrite Hr. cbn [bind fst]. reflexivity.
  - intros store q p top_k. apply retrieve_documents_returns.
Qed.

(** ** Scenario A *)

(** C2, the claim as stated fails: for "What is the remote work policy?"
    under persona Executive with [top_k = 10] the top-ranked document of the
    sample corpus is the business trends document, not [policy_001]. *)
Lemma scenario_A_top_is_trends :
  exists r store',
    retrieve_documents initial_store scenario_A_query "Executive" 10
    = Ok (r, store')
    /\ hd_error (result_ids r) = Some "trends_001"
    /\ hd_error (result_ids r) <> Some "policy_001".
Proof.
  eexists. eexists. split; [vm_compute; reflexivity|].
  split; [reflexivity | discriminate].
Qed.

(** C2, as the code behaves.  The result of scenario A is not empty: it
    holds the business trends document (score 17/38) followed by the remote
    work policy (score 13/30), and the average relevance in the metadata is
    strictly above 0.3. *)
Theorem scenario_A_result :
  exists r store' avg,
    retrieve_documents initial_store scenario_A_query "Executive" 10
    = Ok (r, store')
    /\ result_ids r = ["trends_001"; "policy_001"]
    /\ Forall2 Qeq (map relevance_score (documents r)) [17 # 38; 13 # 30]
    /\ retrieval_metadata r = [("avg_relevance", SFloat avg)]
    /\ 0.3 < avg.
Proof.
  eexists. eexists. eexists. split; [vm_compute; reflexivity|].
  split; [reflexivity|].
  split; [repeat constructor|].
  split; [reflexivity|].
  reflexivity.
Qed.

(** ** Scenario B *)


(** ** The scoring formula *)

(** C4.  When the query has at least one candidate term and the document
    at least one word, the score returned by the code is the score of
    section 4.1: 0 when the coverage is under 0.3 or the density under
    0.01, and otherwise the weighted sum with its three bonuses, capped
    at 1; exact matches are the boundary-delimited ones and count 2,
    the other matches count 1. *)
Theorem calculate_relevance_formula (d : Document) (q p : string) :
  (0 < Z.of_nat (List.length (Spec.candidate_terms q)))%Z ->
  (0 < Spec.word_count d)%Z ->
  calculate_relevance d q p = Ok (Spec.score d q p).
Proof.
  intros Hterms Hwords.
  rewrite calculate_relevance_unfold. unfold Spec.score.
  destruct (Spec.candidate_terms q) as [|t ts] eqn:Et;
    [cbn in Hterms; lia|].
  destruct (Qltb (Spec.query_coverage d q) 0.3); [reflexivity|].
  destruct (Z.eqb_spec (Spec.word_count d) 0) as [E|_]; [lia|].
  destruct (Qltb (Spec.matched_density d q) 0.01); [reflexivity|].
  cbn [orb]. unfold combined.
  rewrite py_min_eq_Qmin.
  rewrite (Qmult_comm_eq (Spec.query_coverage d q) 0.4).
  rewrite (Qmult_comm_eq (Spec.matched_density d q) 0.2).
  reflexivity.
Qed.

(** The formula at the remote work policy document, for the query of
    scenario A. *)
Lemma calculate_relevance_formula_witness :
  (0 < Z.of_nat (List.length (Spec.candidate_terms scenario_A_query)))%Z
  /\ (0 < Spec.word_count doc_policy_001)%Z
  /\ calculate_relevance doc_policy_001 scenario_A_query "Executive"
     = Ok (Spec.score doc_policy_001 scenario_A_query "Executive").
Proof.
  split; [reflexivity|]. split; [reflexivity|].
  apply (calculate_relevance_formula doc_policy_001 scenario_A_query
                                     "Executive"); reflexivity.
Defined.

(** ** Range of the score *)

(** C5.  For every document, query and persona the scorer returns a score
    between 0 and 1, both included. *)
Theorem relevance_in_unit_interval (d : Document) (q p : string) :
  exists v, calculate_relevance d q p = Ok v /\ 0 <= v /\ v <= 1.
Proof.
  rewrite calculate_relevance_unfold.
  destruct (Spec.candidate_terms q) as [|t ts] eqn:Et.
  { exists 0. repeat split; discriminate. }
  destruct (Qltb (Spec.query_coverage d q) 0.3).
  { exists 0. repeat split; discriminate. }
  destruct (Z.eqb_spec (Spec.word_count d) 0) as [|Hw].
  { exists 0. repeat split; discriminate. }
  destruct (Qltb (Spec.matched_density d q) 0.01).
  { exists 0. repeat split; discriminate. }
  exists (combined d q p). split; [reflexivity|].
  apply combined_bounds; [rewrite Et; discriminate | exact Hw].
Qed.

(** ** The persona filter *)

(** C6, the claim as stated fails: a technical document scored exactly 0.7
    passes the filter of persona General, whose preferred types do not
    include it, although 0.7 is not strictly greater than 0.7. *)
Lemma boundary_score_passes :
  In boundary_doc (filter_documents [boundary_doc] "General")
  /\ type_in (doc_type boundary_doc)
             (preferred_types_of "General") = false
  /\ ~ 0.7 < relevance_score boundary_doc.
Proof.
  split; [vm_compute; left; reflexivity|].
  split; [reflexivity|].
  intros H. vm_compute in H. discriminate.
Qed.

(** C6, as the code behaves.  For a known persona, a document whose type
    is not among the preferred types is absent from the output unless its
    relevance score is at least 0.7: a document of the output with such a
    type scores 0.7 or more.  Nothing is said of the converse, since the
    exclude-keywords, [min_relevance] and the cap can still drop it. *)
Theorem non_preferred_needs_high_score (docs : list Document)
  (persona : string) (filters : PersonaFilter) (doc : Document) :
  PyDict.get persona persona_filters = Some filters ->
  type_in (doc_type doc) (preferred_types filters) = false ->
  In doc (filter_documents docs persona) ->
  0.7 <= relevance_score doc.
Proof.
  intros Hf Htype Hin.
  destruct (filter_documents_kept _ _ _ _ Hf Hin) as [_ Hk].
  unfold filter_keeps in Hk. rewrite Htype in Hk. cbn [negb andb] in Hk.
  destruct (Qltb (relevance_score doc) 0.7) eqn:E; [discriminate|].
  apply Qltb_ge in E. exact E.
Qed.

(** The bound at the technical document scored 0.7, for persona General. *)
Lemma non_preferred_needs_high_score_witness :
  exists filters,
    PyDict.get "General" persona_filters = Some filters
    /\ type_in (doc_type boundary_doc) (preferred_types filters) = false
    /\ In boundary_doc (filter_documents [boundary_doc] "General")
    /\ 0.7 <= relevance_score boundary_doc.
Proof.
  eexists. split; [reflexivity|]. split; [reflexivity|].
  split; [vm_compute; left; reflexivity|].
  eapply (non_preferred_needs_high_score [boundary_doc] "General");
    [reflexivity | reflexivity | vm_compute; left; reflexivity].
Defined.

(** C7.  For a known persona, a document whose lower-cased content
    contains one of the persona's exclude-keywords is not in the output of
    [filter_documents], whatever its relevance score. *)
Theorem excluded_never_returned (docs : list Document) (persona : string)
  (filters : PersonaFilter) (doc : Document) :
  PyDict.get persona persona_filters = Some filters ->
  any_keyword_in (exclude_keywords filters) (PyStr.lower (content doc))
  = true ->
  ~ In doc (filter_documents docs persona).
Proof.
  intros Hf Hex Hin.
  destruct (filter_documents_kept _ _ _ _ Hf Hin) as [_ Hk].
  unfold filter_keeps in Hk. rewrite Hex in Hk.
  destruct (negb (type_in (doc_type doc) (preferred_types filters))
            && Qltb (relevance_score doc) 0.7); discriminate.
Qed.

(** The financial results document mentions revenue: the HR Specialist
    filter drops it even with the highest score. *)
Lemma excluded_never_returned_witness :
  exists filters,
    PyDict.get "HR Specialist" persona_filters = Some filters
    /\ any_keyword_in (exclude_keywords filters)
                      (PyStr.lower (content top_scored_business_doc)) = true
    /\ ~ In top_scored_business_doc
            (filter_documents [top_scored_business_doc] "HR Specialist").
Proof.
  eexists. split; [reflexivity|]. split; [reflexivity|].
  eapply (excluded_never_returned [top_scored_business_doc] "HR Specialist");
    reflexivity.
Defined.

(** ** Empty results *)

(** C8, the claim as stated fails: for "What are the financial results?"
    under persona HR Specialist the only document scoring above 0.1 is the
    financial results document, which the persona filter excludes; the
    documents list is empty and the metadata holds [avg_relevance] 0 and no
    reason code. *)
Lemma empty_result_without_reason :
  exists r store',
    retrieve_documents initial_store financial_query "HR Specialist" 10
    = Ok (r, store')
    /\ documents r = []
    /\ retrieval_metadata r = [("avg_relevance", SInt 0)]
    /\ PyDict.get "reason" (retrieval_metadata r) = None.
Proof.
  eexists. eexists. split; [vm_compute; reflexivity|].
  repeat split; reflexivity.
Qed.

(** C8, as the code behaves.  Every retrieval returns.  When no stored
    document scores above 0.1 the result is the empty one with the reason
    code [no_relevant_documents]; when some document does, the metadata
    holds [avg_relevance] and no reason code, and its value is the integer 0
    if the slice and the persona filter leave no document.  The query
    "zzqqxx nonsense unmatched" gives, over the sample corpus, the empty
    result with the reason code for every persona and every [top_k]. *)
Theorem empty_result_metadata :
  (forall (store : DocumentStore) (q p : string) (top_k : Z),
      exists r store',
        retrieve_documents store q p top_k = Ok (r, store')
        /\ (if existsb (above_floor q p) (get_all_documents store)
            then retrieval_metadata r
                 = [("avg_relevance",
                     match documents r with
                     | [] => SInt 0
                     | _ :: _ =>
                         SFloat (sum_scores (documents r)
                                 / inject_Z (Z.of_nat
                                               (List.length (documents r))))
                     end)]
            else r = no_relevant_documents q p))
  /\ (forall (p : string) (top_k : Z),
         exists store',
           retrieve_documents initial_store scenario_C_query p top_k
           = Ok (no_relevant_documents scenario_C_query p, store')).
Proof.
  split.
  - intros store q p top_k.
    destruct (retrieve_documents_shape q p store top_k)
      as (r & s & H & _ & _ & Hm).
    exists r, s. split; assumption.
  - intros p top_k. eexists. vm_compute. reflexivity.
Qed.

(** ** Documents without words *)

(** C9.  The scorer returns on every input, so no division by zero is
    reached; and for a document whose content has no word (the empty
    content in particular) it returns exactly 0. *)
Theorem wordless_document_scores_zero (d : Document) (q p : string) :
  returns (calculate_relevance d q p)
  /\ (PyStr.split (content d) = [] -> calculate_relevance d q p = Ok 0).
Proof.
  split; [apply calculate_relevance_returns|].
  intros Hw. apply split_lower_nil in Hw.
  rewrite calculate_relevance_unfold.
  destruct (Spec.candidate_terms q); [reflexivity|].
  destruct (Qltb (Spec.query_coverage d q) 0.3); [reflexivity|].
  unfold Spec.word_count. rewrite Hw. reflexivity.
Qed.

(** The score of a document with empty content. *)
Lemma wordless_document_scores_zero_witness :
  PyStr.split (content empty_doc) = []
  /\ calculate_relevance empty_doc scenario_A_query "Executive" = Ok 0.
Proof.
  split; [reflexivity|].
  apply (proj2 (wordless_document_scores_zero empty_doc scenario_A_query
                                              "Executive")).
  reflexivity.
Defined.

(** ** The document store *)

(** C10.  In a store whose keys are unique and equal to the ids of their
    documents, adding a document stores it under its id: [get_document]
    then returns it, the invariant still holds, the ids listed by
    [get_all_documents] are pairwise distinct, and when the id was already
    stored the number of documents does not change.  Retrieval, the other
    operation that writes to the store, keeps the invariant as well. *)
Theorem add_document_replaces (s : DocumentStore) (d : Document) :
  store_wf s ->
  get_document (add_document s d) (id d) = Some d
  /\ store_wf (add_document s d)
  /\ NoDup (map id (get_all_documents (add_document s d)))
  /\ (get_document s (id d) <> None ->
      List.length (get_all_documents (add_document s d))
      = List.length (get_all_documents s))
  /\ (forall (q p : string) (top_k : Z),
         exists r s',
           retrieve_documents s q p top_k = Ok (r, s') /\ store_wf s').
Proof.
  intros Hwf. repeat split.
  - apply get_set_same.
  - now apply NoDup_keys_set; destruct Hwf.
  - apply Forall_set; [reflexivity | now destruct Hwf].
  - apply store_wf_unique_ids, store_wf_add, Hwf.
  - intros Hin. unfold get_all_documents, PyDict.values.
    rewrite !length_map. now apply length_set_present.
  - intros q p top_k.
    destruct (retrieve_documents_returns q p s top_k) as [[r s'] H].
    exists r, s'. split; [exact H|]. eapply store_wf_retrieve; eauto.
Qed.

(** Adding a revised remote work policy to the sample store replaces the
    first version: seven documents remain. *)
Lemma add_document_replaces_witness :
  store_wf initial_store
  /\ get_document (add_document initial_store revised_policy) "policy_001"
     = Some revised_policy
  /\ List.length (get_all_documents (add_document initial_store revised_policy))
     = 7%nat.
Proof.
  split; [apply store_wf_initial|].
  destruct (add_document_replaces initial_store revised_policy
                                  store_wf_initial)
    as (Hget & _ & _ & Hlen & _).
  split; [exact Hget|].
  rewrite Hlen; [reflexivity | discriminate].
Defined.

(** * Further properties of the retrieval core *)

(** ** Ranked lists *)

Section Ranked.

Lemma HdRel_firstn (a : Document) (n : nat) (l : list Document) :
  HdRel ranks_before a l -> HdRel ranks_before a (firstn n l).
Proof.
  intros H. destruct n as [|n]; [constructor|].
  destruct l as [|b l]; [constructor|].
  inversion H; subst. now constructor.
Qed.

Lemma Sorted_firstn (n : nat) (l : list Document) :
  Sorted ranks_before l -> Sorted ranks_before (firstn n l).
Proof.
  intros H. revert n. induction H as [|a l Hs IH Hhd]; intros n.
  - rewrite firstn_nil. constructor.
  - destruct n as [|n]; [constructor|].
    cbn [firstn]. constructor; [apply IH | now apply HdRel_firstn].
Qed.

Lemma Sorted_slice_to (k : Z) (l : list Document) :
  Sorted ranks_before l -> Sorted ranks_before (PyList.slice_to k l).
Proof.
  intros H. unfold PyList.slice_to.
  destruct (0 <=? k)%Z; now apply Sorted_firstn.
Qed.

Lemma length_slice_to {A : Type} (k : Z) (l : list A) :
  (0 <= k)%Z -> (Z.of_nat (List.length (PyList.slice_to k l)) <= k)%Z.
Proof.
  intros Hk. unfold PyList.slice_to.
  destruct (Z.leb_spec 0 k); [|lia].
  pose proof (firstn_le_length (Z.to_nat k) l). lia.
Qed.

Lemma length_slice_to_le {A : Type} (k : Z) (l : list A) :
  (List.length (PyList.slice_to k l) <= List.length l)%nat.
Proof.
  unfold PyList.slice_to. destruct (0 <=? k)%Z;
    rewrite length_firstn; lia.
Qed.

Lemma slice_to_all {A : Type} (k : Z) (l : list A) :
  (Z.of_nat (List.length l) <= k)%Z -> PyList.slice_to k l = l.
Proof.
  intros H. unfold PyList.slice_to.
  destruct (Z.leb_spec 0 k); [|lia].
  apply firstn_all2. lia.
Qed.

End Ranked.

(** ** The table of persona filters *)

Ltac known_persona H :=
  unfold persona_filters in H; cbn [PyDict.get] in H;
  repeat match type of H with
         | (if String.eqb ?p ?k then _ else _) = _ =>
             destruct (String.eqb p k) eqn:?;
             [injection H as <- | ]
         end;
  try discriminate.

Lemma max_documents_nonneg (persona : string) (filters : PersonaFilter) :
  PyDict.get persona persona_filters = Some filters ->
  (0 <= max_documents filters)%Z.
Proof. intros H. known_persona H; cbn; lia. Qed.

Lemma min_relevance_above_floor (persona : string) (filters : PersonaFilter) :
  PyDict.get persona persona_filters = Some filters ->
  0.1 < min_relevance filters.
Proof. intros H. known_persona H; reflexivity. Qed.

(** ** The scoring loop as a map *)

Section Rescoring.

Variables q p : string.

Lemma relevance_of_ok (d : Document) :
  calculate_relevance d q p = Ok (relevance_of d q p).
Proof.
  unfold relevance_of.
  destruct (calculate_relevance_returns d q p) as [v Hv].
  now rewrite Hv.
Qed.

Lemma score_documents_rescore (docs : PyDict.t Document) :
  score_documents docs q p
  = Ok (rescore docs q p,
        above_floor_docs (rescore docs q p)).
Proof.
  induction docs as [|[key doc] rest IH]; [reflexivity|].
  cbn [score_documents]. rewrite relevance_of_ok, IH. cbn [bind].
  unfold above_floor_docs, PyDict.values.
  cbn [rescore map fst snd filter relevance_score set_relevance_score].
  destruct (Qltb 0.1 (relevance_of doc q p)); reflexivity.
Qed.

(** The retrieval, with its loop replaced by the map. *)
Lemma retrieve_documents_rescore (store : DocumentStore) (top_k : Z) :
  retrieve_documents store q p top_k
  = let docs' := rescore (store_documents store) q p in
    let scored_docs := above_floor_docs docs' in
    let filtered_docs :=
      filter_documents (PyList.slice_to top_k (sort_desc scored_docs))
                       p in
    Ok (match scored_docs with
        | [] => no_relevant_documents q p
        | _ :: _ =>
            {| documents := filtered_docs;
               query := q;
               persona := p;
               total_retrieved := Z.of_nat (List.length filtered_docs);
               retrieval_metadata :=
                 [("avg_relevance",
                   match filtered_docs with
                   | [] => SInt 0
                   | _ :: _ =>
                       SFloat (sum_scores filtered_docs
                               / inject_Z (Z.of_nat
                                             (List.length filtered_docs)))
                   end)] |}
        end,
        {| store_documents := docs' |}).
Proof.
  unfold retrieve_documents. rewrite score_documents_rescore. cbn [bind].
  cbv zeta.
  destruct (above_floor_docs (rescore (store_documents store) q p))
    as [|d l]; [reflexivity|].
  rewrite avg_relevance_returns. reflexivity.
Qed.

Lemma In_above_floor_docs (docs : PyDict.t Document) (d : Document) :
  In d (above_floor_docs (rescore docs q p)) ->
  exists d0, In d0 (PyDict.values docs)
             /\ d = scored_copy d0 q p
             /\ 0.1 < relevance_of d0 q p.
Proof.
  unfold above_floor_docs, PyDict.values, rescore.
  rewrite filter_In, map_map, in_map_iff. cbn [snd].
  intros [[e [He Hin]] Hs]. subst d.
  exists (snd e). split; [now apply in_map|].
  split; [reflexivity|].
  cbn [relevance_score set_relevance_score] in Hs. now apply Qltb_lt.
Qed.

End Rescoring.

(** The filter returns documents of its input, for every persona. *)
Lemma filter_documents_subset (docs : list Document) (persona : string)
  (d : Document) :
  In d (filter_documents docs persona) -> In d docs.
Proof.
  unfold filter_documents.
  destruct (PyDict.get persona persona_filters); [|auto].
  intros H. apply In_slice_to, In_sort_desc, filter_In in H. tauto.
Qed.

Lemma filter_documents_ranked (docs : list Document) (persona : string) :
  Sorted ranks_before docs ->
  Sorted ranks_before (filter_documents docs persona).
Proof.
  intros H. unfold filter_documents.
  destruct (PyDict.get persona persona_filters); [|exact H].
  apply Sorted_slice_to, sort_desc_sorted.
Qed.

(** ** The score beyond the cutoffs *)

Section Scores.

Lemma calculate_relevance_cutoffs (d : Document) (q p : string) :
  calculate_relevance d q p
  = Ok (if passes_cutoffs d q then combined d q p else 0).
Proof.
  rewrite calculate_relevance_unfold. unfold passes_cutoffs.
  destruct (Spec.candidate_terms q); [reflexivity|].
  destruct (Qltb (Spec.query_coverage d q) 0.3); [reflexivity|].
  destruct (Spec.word_count d =? 0)%Z; [reflexivity|].
  destruct (Qltb (Spec.matched_density d q) 0.01);
    cbn [negb andb]; reflexivity.
Qed.

Lemma relevance_of_cutoffs (d : Document) (q p : string) :
  relevance_of d q p = if passes_cutoffs d q then combined d q p else 0.
Proof. unfold relevance_of. now rewrite calculate_relevance_cutoffs. Qed.

Lemma passes_cutoffs_facts (d : Document) (q : string) :
  passes_cutoffs d q = true ->
  Spec.candidate_terms q <> [] /\ (Spec.word_count d <> 0)%Z
  /\ 0.3 <= Spec.query_coverage d q /\ 0.01 <= Spec.matched_density d q.
Proof.
  unfold passes_cutoffs.
  destruct (Spec.candidate_terms q); [discriminate|].
  rewrite !andb_true_iff, !negb_true_iff. intros [[Hq Hw] Hm].
  apply Qltb_ge in Hq. apply Qltb_ge in Hm. apply Z.eqb_neq in Hw.
  repeat split; try assumption. discriminate.
Qed.

(** Past the cutoffs the score is at least 0.4 * 0.3 + 0.2 * 0.01. *)
Lemma combined_floor (d : Document) (q p : string) :
  passes_cutoffs d q = true -> 0.122 <= combined d q p.
Proof.
  intros H. destruct (passes_cutoffs_facts d q H) as (_ & _ & Hq & Hm).
  unfold combined. apply py_min_ge; [|discriminate].
  pose proof (topic_bonus_nonneg (PyStr.lower q) (PyStr.lower (content d))).
  pose proof (keyword_bonus_nonneg (preferred_keywords_of p)
                                   (PyStr.lower (content d))).
  pose proof (type_bonus_nonneg (preferred_types_of p) (doc_type d)).
  lra.
Qed.

Lemma py_min_mono (a b c : Q) : a <= b -> py_min a c <= py_min b c.
Proof.
  intros H. rewrite !py_min_Qmin. apply Q.min_le_compat_r. exact H.
Qed.

Lemma preferred_of_unknown (p : string) :
  PyDict.get p persona_filters = None ->
  preferred_keywords_of p = [] /\ preferred_types_of p = [].
Proof.
  intros H. unfold preferred_keywords_of, preferred_types_of.
  now rewrite H.
Qed.

Lemma lower_char_idem (c : ascii) :
  PyStr.lower_char (PyStr.lower_char c) = PyStr.lower_char c.
Proof. destruct c as [[] [] [] [] [] [] [] []]; reflexivity. Qed.

Lemma lower_idem (s : string) : PyStr.lower (PyStr.lower s) = PyStr.lower s.
Proof.
  induction s as [|c s IH]; [reflexivity|].
  cbn [PyStr.lower]. now rewrite lower_char_idem, IH.
Qed.

Lemma filter_none {A : Type} (f g : A -> bool) (l : list A) :
  (forall x, g x = true -> f x = false) ->
  forallb g l = true -> filter f l = [].
Proof.
  intros Hfg. induction l as [|x l IH]; [reflexivity|].
  cbn [forallb filter]. rewrite andb_true_iff. intros [Hx Hl].
  rewrite (Hfg x Hx). auto.
Qed.

Lemma no_candidate_terms (q : string) :
  forallb dropped_token (PyStr.split (PyStr.lower q)) = true ->
  Spec.candidate_terms q = [].
Proof.
  intros H. unfold Spec.candidate_terms, query_terms_of.
  rewrite (filter_none _ dropped_token); [reflexivity | | exact H].
  intros term Hd. unfold dropped_token in Hd.
  apply orb_true_iff in Hd as [Hd|Hd].
  - now rewrite Hd.
  - rewrite Z.ltb_antisym, Hd. apply andb_false_r.
Qed.

End Scores.

(** ** Sums of scores *)

Lemma inject_Z_succ (n : nat) :
  inject_Z (Z.of_nat (S n)) == inject_Z (Z.of_nat n) + 1.
Proof. rewrite Nat2Z.inj_succ, <- Z.add_1_r, inject_Z_plus. reflexivity. Qed.

Lemma sum_scores_bounds (lo hi : Q) (l : list Document) :
  Forall (fun d => lo <= relevance_score d /\ relevance_score d <= hi) l ->
  inject_Z (Z.of_nat (List.length l)) * lo <= sum_scores l
  /\ sum_scores l <= inject_Z (Z.of_nat (List.length l)) * hi.
Proof.
  intros H. unfold sum_scores.
  assert (G : forall acc,
             acc + inject_Z (Z.of_nat (List.length l)) * lo
             <= fold_left (fun a d => a + relevance_score d) l acc
             /\ fold_left (fun a d => a + relevance_score d) l acc
                <= acc + inject_Z (Z.of_nat (List.length l)) * hi).
  { induction H as [|d l [Hlo Hhi] _ IH]; intros acc.
    - cbn [fold_left List.length]. change (inject_Z (Z.of_nat 0)) with 0.
      split; lra.
    - cbn [fold_left List.length]. rewrite inject_Z_succ.
      destruct (IH (acc + relevance_score d)) as [IH1 IH2].
      rewrite !Qmult_plus_distr_l.
      split; lra. }
  destruct (G 0) as [G1 G2]. split; lra.
Qed.

Lemma average_bounds (lo hi : Q) (l : list Document) :
  l <> [] ->
  Forall (fun d => lo <= relevance_score d /\ relevance_score d <= hi) l ->
  lo <= sum_scores l / inject_Z (Z.of_nat (List.length l))
  /\ sum_scores l / inject_Z (Z.of_nat (List.length l)) <= hi.
Proof.
  intros Hne H. destruct (sum_scores_bounds lo hi l H) as [H1 H2].
  assert (Hn : 0 < inject_Z (Z.of_nat (List.length l))).
  { change 0 with (inject_Z 0). rewrite <- Zlt_Qlt.
    destruct l; [congruence | cbn [List.length]; lia]. }
  split.
  - apply Qle_shift_div_l; [exact Hn|]. rewrite Qmult_comm. exact H1.
  - apply Qle_shift_div_r; [exact Hn|]. rewrite Qmult_comm. exact H2.
Qed.

(** ** Documents of a retrieval *)

Lemma scored_copy_range (d0 : Document) (q p : string) :
  0.1 < relevance_of d0 q p ->
  0.122 <= relevance_score (scored_copy d0 q p)
  /\ relevance_score (scored_copy d0 q p) <= 1.
Proof.
  cbn [scored_copy relevance_score set_relevance_score].
  rewrite relevance_of_cutoffs.
  destruct (passes_cutoffs d0 q) eqn:E; [|intros H; discriminate H].
  intros _. split; [now apply combined_floor|].
  unfold combined. apply py_min_le_r.
Qed.

Lemma retrieved_from_store (store : DocumentStore) (q p : string) (top_k : Z)
  (r : RetrievalResult) (store' : DocumentStore) (d : Document) :
  retrieve_documents store q p top_k = Ok (r, store') ->
  In d (documents r) ->
  exists d0, In d0 (get_all_documents store)
             /\ d = scored_copy d0 q p
             /\ 0.1 < relevance_of d0 q p.
Proof.
  rewrite retrieve_documents_rescore. cbv zeta. intros H Hin.
  injection H as <- _.
  destruct (above_floor_docs (rescore (store_documents store) q p))
    as [|x l] eqn:E; [destruct Hin|].
  cbn [documents] in Hin. rewrite <- E in Hin.
  apply filter_documents_subset, In_slice_to in Hin.
  apply (proj1 (In_sort_desc _ _)) in Hin.
  now apply In_above_floor_docs in Hin.
Qed.

Lemma rescore_rescore (docs : PyDict.t Document) (q p q' p' : string) :
  rescore (rescore docs q' p') q p = rescore docs q p.
Proof.
  unfold rescore. rewrite map_map. apply map_ext. intros [k d]. reflexivity.
Qed.

(** ** Substrings, words and lines *)

Section Infix.

Lemma len_append (a b : string) :
  PyStr.len (a ++ b) = (PyStr.len a + PyStr.len b)%Z.
Proof.
  unfold PyStr.len. induction a as [|c a IH]; cbn [append String.length].
  - lia.
  - rewrite !Nat2Z.inj_succ. lia.
Qed.

Lemma contains_unfold (t s : string) :
  PyStr.contains t s
  = if prefix t s then true
    else match s with
         | EmptyString => false
         | String _ s' => PyStr.contains t s'
         end.
Proof. destruct s; reflexivity. Qed.

Lemma contains_infix (a t b : string) :
  PyStr.contains t (a ++ t ++ b) = true.
Proof.
  induction a as [|c a IH].
  - cbn [append]. rewrite contains_unfold, prefix_app. reflexivity.
  - cbn [append]. rewrite contains_unfold.
    destruct (prefix t (String c (a ++ t ++ b))); [reflexivity | exact IH].
Qed.

Lemma In_concat_infix (sep x : string) (l : list string) :
  In x l -> exists a b, String.concat sep l = a ++ x ++ b.
Proof.
  induction l as [|y l IH]; [intros []|].
  intros [->|Hin].
  - exists EmptyString. destruct l as [|z l].
    + exists EmptyString. cbn. now rewrite append_nil_r.
    + exists (sep ++ String.concat sep (z :: l)). reflexivity.
  - destruct (IH Hin) as (a & b & E).
    destruct l as [|z l]; [destruct Hin|].
    exists (y ++ sep ++ a), b.
    change (String.concat sep (y :: z :: l))
      with (y ++ sep ++ String.concat sep (z :: l)).
    rewrite E, !append_assoc. reflexivity.
Qed.

Lemma concat_starts (sep x y : string) (l : list string) :
  PyStr.startswith (String.concat sep (x :: y :: l)) x = true.
Proof. unfold PyStr.startswith. cbn [String.concat]. apply prefix_app. Qed.

Lemma endswith_app (a t : string) : PyStr.endswith (a ++ t) t = true.
Proof. unfold PyStr.endswith. rewrite rev_app. apply prefix_app. Qed.

Lemma concat_ends (sep x : string) (l : list string) :
  PyStr.endswith (String.concat sep (l ++ [x])) x = true.
Proof.
  induction l as [|y l IH].
  - cbn. apply (endswith_app EmptyString).
  - destruct (l ++ [x])%list as [|z l'] eqn:E; [destruct l; discriminate|].
    change (String.concat sep ((y :: l) ++ [x])%list)
      with (String.concat sep (y :: (l ++ [x])%list)).
    rewrite E.
    change (String.concat sep (y :: z :: l'))
      with (y ++ sep ++ String.concat sep (z :: l')).
    destruct (endswith_split _ _ IH) as [a Ha]. rewrite Ha.
    rewrite <- !append_assoc. apply endswith_app.
Qed.

Lemma split_acc_space (a b cur : string) (c : ascii) :
  PyStr.isspace c = true ->
  PyStr.split_acc (a ++ String c b) cur
  = (PyStr.split_acc a cur ++ PyStr.split b)%list.
Proof.
  intros Hc. revert cur. induction a as [|x a IH]; intros cur.
  - cbn [append PyStr.split_acc]. rewrite Hc. destruct cur; reflexivity.
  - cbn [append PyStr.split_acc].
    destruct (PyStr.isspace x); [|apply IH].
    destruct cur; [apply IH|]. cbn [app]. f_equal. apply IH.
Qed.

(** Words on the two sides of a space are counted apart. *)
Lemma words_of_space (a b : string) (c : ascii) :
  PyStr.isspace c = true ->
  words_of (a ++ String c b) = (words_of a + words_of b)%Z.
Proof.
  intros Hc. unfold words_of, PyStr.split.
  rewrite (split_acc_space a b EmptyString c Hc), length_app.
  unfold PyStr.split. lia.
Qed.

Lemma length_split_char_acc (sep : ascii) (s cur : string) :
  List.length (split_char_acc sep s cur) = S (count_char sep s).
Proof.
  revert cur. induction s as [|c s IH]; intros cur; [reflexivity|].
  cbn [split_char_acc count_char].
  destruct (Ascii.eqb c sep); cbn [List.length]; rewrite IH; reflexivity.
Qed.

Lemma count_char_app (c : ascii) (a b : string) :
  count_char c (a ++ b) = (count_char c a + count_char c b)%nat.
Proof.
  induction a as [|x a IH]; [reflexivity|].
  cbn [append count_char]. rewrite IH. lia.
Qed.

Lemma lines_of_count (s : string) :
  lines_of s = (Z.of_nat (count_char newline s) + 1)%Z.
Proof.
  unfold lines_of, split_char. rewrite length_split_char_acc. lia.
Qed.

Lemma In_context_entries (i : Z) (docs : list Document) (d : Document) :
  In d docs -> In (content d) (context_entries i docs).
Proof.
  revert i. induction docs as [|x docs IH]; intros i; [intros []|].
  intros [->|Hin]; cbn [context_entries].
  - apply in_or_app. left. cbn. auto.
  - apply in_or_app. right. now apply IH.
Qed.

End Infix.

(** ** Lookups in the store *)

Section StoreLookups.

Context {V : Type}.
Implicit Types (d : PyDict.t V) (k : string) (v : V).

Lemma get_set_other k k' v d :
  k <> k' -> PyDict.get k' (PyDict.set k v d) = PyDict.get k' d.
Proof.
  intros Hne. induction d as [|[k0 v0] d IH]; cbn [PyDict.set PyDict.get].
  - destruct (String.eqb_spec k' k); [congruence | reflexivity].
  - destruct (String.eqb_spec k k0) as [->|Hk]; cbn [PyDict.get].
    + destruct (String.eqb_spec k' k0); [congruence | reflexivity].
    + now rewrite IH.
Qed.

Lemma set_absent k v d :
  PyDict.get k d = None -> PyDict.set k v d = (d ++ [(k, v)])%list.
Proof.
  induction d as [|[k0 v0] d IH]; cbn [PyDict.set PyDict.get app];
    [reflexivity|].
  destruct (String.eqb k k0); [discriminate|].
  intros H. now rewrite IH.
Qed.

Lemma keys_set_present k v d :
  PyDict.get k d <> None -> PyDict.keys (PyDict.set k v d) = PyDict.keys d.
Proof.
  unfold PyDict.keys.
  induction d as [|[k0 v0] d IH]; cbn [PyDict.set PyDict.get map fst];
    [congruence|].
  destruct (String.eqb_spec k k0) as [->|Hne]; cbn [map fst].
  - reflexivity.
  - intros H. now rewrite IH.
Qed.

Lemma get_Some_In k v d : PyDict.get k d = Some v -> In (k, v) d.
Proof.
  induction d as [|[k0 v0] d IH]; cbn [PyDict.get]; [discriminate|].
  destruct (String.eqb_spec k k0) as [->|Hne].
  - intros [= ->]. now left.
  - intros H. right. auto.
Qed.

Lemma get_None_keys k d : PyDict.get k d = None <-> ~ In k (PyDict.keys d).
Proof.
  unfold PyDict.keys.
  induction d as [|[k0 v0] d IH]; cbn [PyDict.get map fst In]; [tauto|].
  destruct (String.eqb_spec k k0) as [->|Hne].
  - split; [discriminate | intros H; exfalso; apply H; now left].
  - rewrite IH. split; [intros H [E|Hi]; [congruence | tauto] | tauto].
Qed.

Lemma In_NoDup_get k v d :
  NoDup (PyDict.keys d) -> In (k, v) d -> PyDict.get k d = Some v.
Proof.
  unfold PyDict.keys.
  induction d as [|[k0 v0] d IH]; cbn [PyDict.get map fst]; [intros _ []|].
  intros Hnd [E|Hin].
  - injection E as -> ->. now rewrite String.eqb_refl.
  - inversion Hnd as [|? ? Hnotin Hnd']; subst.
    destruct (String.eqb_spec k k0) as [->|Hne]; [|auto].
    exfalso. apply Hnotin. now apply (in_map fst) in Hin.
Qed.

End StoreLookups.

(** * Further properties: statements *)

(** ** Persona filter *)

(** X1.  For a known persona the filter returns at most [max_documents]
    documents, whatever the input list. *)
Theorem filter_documents_cap (docs : list Document) (persona : string)
  (filters : PersonaFilter) :
  PyDict.get persona persona_filters = Some filters ->
  (Z.of_nat (List.length (filter_documents docs persona))
   <= max_documents filters)%Z.
Proof.
  intros Hf. unfold filter_documents. rewrite Hf.
  apply length_slice_to. eapply max_documents_nonneg, Hf.
Qed.

(** Four copies of a passing document under persona Executive: three stay. *)
Lemma filter_documents_cap_witness :
  exists filters,
    PyDict.get "Executive" persona_filters = Some filters
    /\ (Z.of_nat (List.length
                    (filter_documents
                       [boundary_doc; boundary_doc; boundary_doc; boundary_doc]
                       "Executive"))
        <= max_documents filters)%Z.
Proof.
  eexists. split; [reflexivity|].
  apply (filter_documents_cap
           [boundary_doc; boundary_doc; boundary_doc; boundary_doc]
           "Executive").
  reflexivity.
Defined.

(** X2.  For a known persona the output of the filter is ranked by
    descending score even when the input is not. *)
Theorem filter_documents_sorted (docs : list Document) (persona : string)
  (filters : PersonaFilter) :
  PyDict.get persona persona_filters = Some filters ->
  Sorted ranks_before (filter_documents docs persona).
Proof.
  intros Hf. unfold filter_documents. rewrite Hf.
  apply Sorted_slice_to, sort_desc_sorted.
Qed.

(** Two documents given in ascending order come out in descending order. *)
Lemma filter_documents_sorted_witness :
  exists filters,
    PyDict.get "General" persona_filters = Some filters
    /\ Sorted ranks_before
         (filter_documents
            [set_relevance_score doc_general_001 0.5;
             set_relevance_score doc_policy_001 0.9]
            "General").
Proof.
  eexists. split; [reflexivity|].
  apply (filter_documents_sorted
           [set_relevance_score doc_general_001 0.5;
            set_relevance_score doc_policy_001 0.9]
           "General" _ eq_refl).
Defined.

(** X3.  For a known persona, when the documents that pass the three rules
    are no more than [max_documents], the output is exactly those
    documents, reordered: the cap is the only thing that drops a passing
    document. *)
Theorem filter_documents_complete (docs : list Document) (persona : string)
  (filters : PersonaFilter) :
  PyDict.get persona persona_filters = Some filters ->
  (Z.of_nat (List.length (filter (filter_keeps filters) docs))
   <= max_documents filters)%Z ->
  Permutation (filter_documents docs persona)
              (filter (filter_keeps filters) docs).
Proof.
  intros Hf Hroom. unfold filter_documents. rewrite Hf.
  rewrite slice_to_all.
  - apply sort_desc_perm.
  - now rewrite (Permutation_length (sort_desc_perm _)).
Qed.

Lemma filter_documents_complete_witness :
  exists filters,
    PyDict.get "General" persona_filters = Some filters
    /\ (Z.of_nat (List.length (filter (filter_keeps filters)
                                      [boundary_doc; empty_doc]))
        <= max_documents filters)%Z
    /\ Permutation (filter_documents [boundary_doc; empty_doc] "General")
                   (filter (filter_keeps filters) [boundary_doc; empty_doc]).
Proof.
  eexists. split; [reflexivity|]. split; [vm_compute; discriminate|].
  apply (filter_documents_complete [boundary_doc; empty_doc] "General");
    [reflexivity | vm_compute; discriminate].
Defined.

(** X4.  For a known persona every document of the output comes from the
    input and scores at least the persona's [min_relevance]. *)
Theorem filter_documents_threshold (docs : list Document) (persona : string)
  (filters : PersonaFilter) (doc : Document) :
  PyDict.get persona persona_filters = Some filters ->
  In doc (filter_documents docs persona) ->
  In doc docs /\ min_relevance filters <= relevance_score doc.
Proof.
  intros Hf Hin.
  destruct (filter_documents_kept _ _ _ _ Hf Hin) as [Hd Hk].
  split; [exact Hd|].
  unfold filter_keeps in Hk.
  destruct (negb (type_in (doc_type doc) (preferred_types filters))
            && Qltb (relevance_score doc) 0.7); [discriminate|].
  destruct (any_keyword_in (exclude_keywords filters)
                           (PyStr.lower (content doc))); [discriminate|].
  destruct (Qltb (relevance_score doc) (min_relevance filters)) eqn:E;
    [discriminate|].
  now apply Qltb_ge in E.
Qed.

Lemma filter_documents_threshold_witness :
  exists filters,
    PyDict.get "General" persona_filters = Some filters
    /\ In boundary_doc (filter_documents [boundary_doc] "General")
    /\ In boundary_doc [boundary_doc]
    /\ min_relevance filters <= relevance_score boundary_doc.
Proof.
  eexists. split; [reflexivity|].
  split; [vm_compute; left; reflexivity|].
  apply (filter_documents_threshold [boundary_doc] "General");
    [reflexivity | vm_compute; left; reflexivity].
Defined.

(** ** Retrieval *)

(** X5.  Every retrieval returns its documents ranked by descending score,
    and [total_retrieved] is their number. *)
Theorem retrieve_documents_ranked (store : DocumentStore) (q p : string)
  (top_k : Z) :
  exists r store',
    retrieve_documents store q p top_k = Ok (r, store')
    /\ Sorted ranks_before (documents r)
    /\ total_retrieved r = Z.of_nat (List.length (documents r)).
Proof.
  rewrite retrieve_documents_rescore. cbv zeta.
  eexists. eexists. split; [reflexivity|].
  destruct (above_floor_docs (rescore (store_documents store) q p))
    as [|d l] eqn:E.
  - split; [constructor | reflexivity].
  - cbn [documents total_retrieved]. split; [|reflexivity].
    apply filter_documents_ranked, Sorted_slice_to, sort_desc_sorted.
Qed.

(** X6.  Every document of a retrieval is a document of the store carrying
    the score of this query: it is listed by the store after the call, and
    its score lies between 0.122 and 1. *)
Theorem retrieve_documents_sound (store : DocumentStore) (q p : string)
  (top_k : Z) :
  exists r store',
    retrieve_documents store q p top_k = Ok (r, store')
    /\ Forall (fun d =>
                 (exists d0, In d0 (get_all_documents store)
                             /\ d = scored_copy d0 q p
                             /\ calculate_relevance d0 q p
                                = Ok (relevance_score d))
                 /\ In d (get_all_documents store')
                 /\ 0.122 <= relevance_score d
                 /\ relevance_score d <= 1)
              (documents r).
Proof.
  destruct (retrieve_documents_returns q p store top_k) as [[r store'] H].
  exists r, store'. split; [exact H|].
  apply Forall_forall. intros d Hin.
  destruct (retrieved_from_store _ _ _ _ _ _ _ H Hin) as (d0 & Hd0 & -> & Hs).
  split; [|split].
  - exists d0. split; [exact Hd0|]. split; [reflexivity|].
    apply relevance_of_ok.
  - rewrite retrieve_documents_rescore in H. cbv zeta in H.
    injection H as _ <-.
    unfold get_all_documents, PyDict.values, rescore in *.
    cbn [store_documents]. rewrite map_map. cbn [snd].
    apply in_map_iff in Hd0 as [e [<- He]].
    apply in_map_iff. exists e. split; [reflexivity | exact He].
  - now apply scored_copy_range.
Qed.

(** X7.  A retrieval returns no more documents than the store holds, no
    more than a non-negative [top_k], and for a known persona no more than
    its [max_documents]. *)
Theorem retrieve_documents_size (store : DocumentStore) (q p : string)
  (top_k : Z) :
  exists r store',
    retrieve_documents store q p top_k = Ok (r, store')
    /\ (List.length (documents r)
        <= List.length (get_all_documents store))%nat
    /\ ((top_k < 0)%Z
        \/ (Z.of_nat (List.length (documents r)) <= top_k)%Z)
    /\ match PyDict.get p persona_filters with
       | Some filters =>
           (Z.of_nat (List.length (documents r)) <= max_documents filters)%Z
       | None => True
       end.
Proof.
  rewrite retrieve_documents_rescore. cbv zeta.
  eexists. eexists. split; [reflexivity|].
  set (scored := above_floor_docs (rescore (store_documents store) q p)).
  assert (Hscored : (List.length scored
                     <= List.length (get_all_documents store))%nat).
  { unfold scored, above_floor_docs, get_all_documents, PyDict.values, rescore.
    etransitivity; [apply filter_length_le|].
    rewrite !length_map. reflexivity. }
  destruct scored as [|d l] eqn:E.
  - cbn [documents no_relevant_documents List.length].
    split; [lia|]. split; [lia|].
    destruct (PyDict.get p persona_filters) as [f|] eqn:Hf; [|exact I].
    pose proof (max_documents_nonneg _ _ Hf). lia.
  - cbn [documents]. rewrite <- E in *. clear E.
    assert (Hsub : forall docs,
               (List.length (filter_documents docs p)
                <= List.length docs)%nat).
    { intros docs. unfold filter_documents.
      destruct (PyDict.get p persona_filters); [|lia].
      etransitivity; [apply length_slice_to_le|].
      rewrite (Permutation_length (sort_desc_perm _)).
      apply filter_length_le. }
    split; [|split].
    + etransitivity; [apply Hsub|].
      etransitivity; [apply length_slice_to_le|].
      now rewrite (Permutation_length (sort_desc_perm _)).
    + destruct (Z.ltb_spec top_k 0); [now left | right].
      pose proof (Hsub (PyList.slice_to top_k (sort_desc scored))).
      pose proof (length_slice_to top_k (sort_desc scored)). lia.
    + destruct (PyDict.get p persona_filters) as [f|] eqn:Hf; [|exact I].
      unfold filter_documents. rewrite Hf.
      apply length_slice_to. eapply max_documents_nonneg, Hf.
Qed.

(** X8.  Scores left in the store by an earlier retrieval do not leak into
    a later one: after any retrieval, a retrieval gives the result and the
    store it would have given before it.  Repeating a retrieval gives the
    same result again. *)
Theorem retrieve_documents_ignores_stale_scores (store : DocumentStore)
  (q p : string) (top_k : Z) (q0 p0 : string) (top_k0 : Z) :
  exists r0 store0,
    retrieve_documents store q0 p0 top_k0 = Ok (r0, store0)
    /\ retrieve_documents store0 q p top_k
       = retrieve_documents store q p top_k.
Proof.
  rewrite (retrieve_documents_rescore q0 p0 store top_k0). cbv zeta.
  eexists. eexists. split; [reflexivity|].
  rewrite !retrieve_documents_rescore. cbv zeta. cbn [store_documents].
  rewrite rescore_rescore. reflexivity.
Qed.

(** X9.  A score is either 0 or at least 0.122 (0.4 * 0.3 + 0.2 * 0.01):
    the floor of 0.1 applied by the retriever removes the documents that
    scored 0 and no other. *)
Theorem score_zero_or_above_floor (d : Document) (q p : string) :
  exists v, calculate_relevance d q p = Ok v /\ (v = 0 \/ 0.122 <= v).
Proof.
  rewrite calculate_relevance_cutoffs.
  destruct (passes_cutoffs d q) eqn:E.
  - exists (combined d q p). split; [reflexivity|]. right.
    now apply combined_floor.
  - exists 0. split; [reflexivity | now left].
Qed.

(** X10.  When every word of the query is a stop word or has at most two
    characters once its punctuation is stripped (the empty query
    included), every document scores 0 and the retrieval is the empty
    result with the reason code, for every store, persona and [top_k]. *)
Theorem stop_word_query_retrieves_nothing (q : string) :
  forallb dropped_token (PyStr.split (PyStr.lower q)) = true ->
  (forall (d : Document) (p : string), calculate_relevance d q p = Ok 0)
  /\ (forall (store : DocumentStore) (p : string) (top_k : Z),
         exists store',
           retrieve_documents store q p top_k
           = Ok (no_relevant_documents q p, store')).
Proof.
  intros Hq. apply no_candidate_terms in Hq.
  assert (Hzero : forall d p, calculate_relevance d q p = Ok 0).
  { intros d p. rewrite calculate_relevance_unfold. now rewrite Hq. }
  split; [exact Hzero|].
  intros store p top_k. rewrite retrieve_documents_rescore. cbv zeta.
  assert (E : above_floor_docs (rescore (store_documents store) q p) = []).
  { unfold above_floor_docs, PyDict.values, rescore. rewrite map_map.
    induction (store_documents store) as [|e l IH]; [reflexivity|].
    cbn [map filter snd relevance_score set_relevance_score].
    unfold relevance_of at 1. rewrite Hzero. exact IH. }
  rewrite E. eexists. reflexivity.
Qed.

Lemma stop_word_query_retrieves_nothing_witness :
  forallb dropped_token (PyStr.split (PyStr.lower "The is a")) = true
  /\ calculate_relevance doc_policy_001 "The is a" "General" = Ok 0.
Proof.
  split; [reflexivity|].
  apply (proj1 (stop_word_query_retrieves_nothing "The is a" eq_refl)).
Defined.

(** X11.  Scoring ignores case: the query and the document content may be
    put in lower case beforehand without changing the score. *)
Theorem calculate_relevance_ignores_case (d : Document) (q p : string) :
  calculate_relevance (lowered d) (PyStr.lower q) p
  = calculate_relevance d q p.
Proof.
  unfold calculate_relevance. cbn [lowered content doc_type].
  rewrite !lower_idem. reflexivity.
Qed.

(** X12.  The persona only adds to a score.  A persona without filter
    configuration gets the lowest score any persona gets for the same
    document and query, and whether a document scores above 0 is the same
    for all personas. *)
Theorem persona_only_adds_bonus (d : Document) (q p0 p : string) :
  PyDict.get p0 persona_filters = None ->
  exists v0 v,
    calculate_relevance d q p0 = Ok v0
    /\ calculate_relevance d q p = Ok v
    /\ v0 <= v
    /\ (v0 = 0 <-> v = 0).
Proof.
  intros Hp0. rewrite !calculate_relevance_cutoffs.
  eexists. eexists. split; [reflexivity|]. split; [reflexivity|].
  destruct (passes_cutoffs d q) eqn:E.
  - split.
    + unfold combined. apply py_min_mono.
      destruct (preferred_of_unknown p0 Hp0) as [-> ->].
      change (keyword_bonus_of [] (PyStr.lower (content d))) with 0.
      change (type_bonus_of [] (doc_type d)) with 0.
      pose proof (keyword_bonus_nonneg (preferred_keywords_of p)
                                       (PyStr.lower (content d))).
      pose proof (type_bonus_nonneg (preferred_types_of p) (doc_type d)).
      lra.
    + pose proof (combined_floor d q p0 E) as H0.
      pose proof (combined_floor d q p E) as H1.
      split; intros Hz; rewrite Hz in *; exfalso.
      * apply (Qlt_not_le 0 0.122); [reflexivity | exact H0].
      * apply (Qlt_not_le 0 0.122); [reflexivity | exact H1].
  - split; [apply Qle_refl | tauto].
Qed.

Lemma persona_only_adds_bonus_witness :
  PyDict.get "Auditor" persona_filters = None
  /\ exists v0 v,
       calculate_relevance doc_policy_001 scenario_A_query "Auditor" = Ok v0
       /\ calculate_relevance doc_policy_001 scenario_A_query "Executive"
          = Ok v
       /\ v0 <= v
       /\ (v0 = 0 <-> v = 0).
Proof.
  split; [reflexivity|].
  apply (persona_only_adds_bonus doc_policy_001 scenario_A_query
                                 "Auditor" "Executive").
  reflexivity.
Defined.

(** X13.  When a retrieval returns documents, the metadata holds their
    average relevance as a float, not the integer 0 of the empty case, and
    that average is strictly above the floor of 0.1 and at most 1.  Every
    returned score is at least 0.122, so the bound of 0.1 keeps a margin
    that the rounding of a floating-point sum and quotient does not use
    up. *)
Theorem retrieve_documents_average (store : DocumentStore) (q p : string)
  (top_k : Z) :
  exists r store',
    retrieve_documents store q p top_k = Ok (r, store')
    /\ match documents r with
       | [] => True
       | _ :: _ =>
           exists avg,
             retrieval_metadata r = [("avg_relevance", SFloat avg)]
             /\ 0.1 < avg /\ avg <= 1
       end.
Proof.
  destruct (retrieve_documents_returns q p store top_k) as [[r store'] H].
  exists r, store'. split; [exact H|].
  destruct (documents r) as [|d l] eqn:Ed; [exact I|].
  assert (Hall : Forall (fun d => 0.122 <= relevance_score d
                                  /\ relevance_score d <= 1) (documents r)).
  { apply Forall_forall. intros x Hx.
    destruct (retrieved_from_store _ _ _ _ _ _ _ H Hx) as (d0 & _ & -> & Hs).
    now apply scored_copy_range. }
  rewrite retrieve_documents_rescore in H. cbv zeta in H.
  injection H as Hr _.
  destruct (above_floor_docs (rescore (store_documents store) q p))
    as [|x xs] eqn:E.
  { rewrite <- Hr in Ed. discriminate Ed. }
  rewrite <- Hr in Ed. cbn [documents] in Ed.
  eexists. split; [rewrite <- Hr; cbn [retrieval_metadata]; rewrite Ed;
                   reflexivity|].
  rewrite <- Ed.
  assert (Hd : documents r
               = filter_documents (PyList.slice_to top_k (sort_desc (x :: xs)))
                                  p)
    by (rewrite <- Hr; reflexivity).
  rewrite <- Hd.
  destruct (average_bounds 0.122 1 (documents r)) as [Hlo Hhi];
    [rewrite Hd, Ed; discriminate | exact Hall |].
  split; [|exact Hhi].
  apply (Qlt_le_trans _ 0.122); [reflexivity | exact Hlo].
Qed.

(** ** Document store *)

(** X14.  Adding a document leaves the lookup of every other id
    unchanged. *)
Theorem add_document_other_ids (s : DocumentStore) (d : Document)
  (doc_id : string) :
  doc_id <> id d ->
  get_document (add_document s d) doc_id = get_document s doc_id.
Proof.
  intros Hne. unfold get_document, add_document. cbn [store_documents].
  apply get_set_other. congruence.
Qed.

Lemma add_document_other_ids_witness :
  "tech_001" <> id revised_policy
  /\ get_document (add_document initial_store revised_policy) "tech_001"
     = get_document initial_store "tech_001".
Proof.
  split; [discriminate|].
  apply (add_document_other_ids initial_store revised_policy "tech_001").
  discriminate.
Defined.

(** X15.  [get_all_documents] lists in insertion order: a document with a
    new id is listed last, after the documents already there, and in a
    well-formed store a document that replaces one takes its place, the
    order of the ids being unchanged. *)
Theorem add_document_order (s : DocumentStore) (d : Document) :
  (get_document s (id d) = None ->
   get_all_documents (add_document s d)
   = (get_all_documents s ++ [d])%list)
  /\ (store_wf s -> get_document s (id d) <> None ->
      map id (get_all_documents (add_document s d))
      = map id (get_all_documents s)).
Proof.
  unfold get_document, get_all_documents, add_document, PyDict.values.
  cbn [store_documents]. split.
  - intros Hnew. rewrite (set_absent _ _ _ Hnew), map_app. reflexivity.
  - intros Hwf Hold.
    assert (Hwf' : store_wf (add_document s d)) by now apply store_wf_add.
    destruct Hwf as [_ Hids]. destruct Hwf' as [_ Hids'].
    apply wf_ids in Hids. apply wf_ids in Hids'.
    cbn [add_document store_documents] in Hids'.
    rewrite !map_map. rewrite <- Hids, <- Hids'.
    now apply keys_set_present.
Qed.

Lemma add_document_order_witness :
  get_document initial_store (id empty_doc) = None
  /\ get_all_documents (add_document initial_store empty_doc)
     = (get_all_documents initial_store ++ [empty_doc])%list
  /\ store_wf initial_store
  /\ get_document initial_store (id revised_policy) <> None
  /\ map id (get_all_documents (add_document initial_store revised_policy))
     = map id (get_all_documents initial_store).
Proof.
  split; [reflexivity|].
  split; [apply (proj1 (add_document_order initial_store empty_doc));
          reflexivity|].
  split; [apply store_wf_initial|].
  split; [discriminate|].
  apply (proj2 (add_document_order initial_store revised_policy));
    [apply store_wf_initial | discriminate].
Defined.

(** X16.  In a well-formed store the documents listed by
    [get_all_documents] are exactly those that [get_document] returns for
    their own id, and [get_document] returns [None] exactly for the ids
    that no listed document has. *)
Theorem get_document_agrees_with_listing (s : DocumentStore) :
  store_wf s ->
  (forall d, In d (get_all_documents s) <-> get_document s (id d) = Some d)
  /\ (forall doc_id,
         get_document s doc_id = None
         <-> ~ In doc_id (map id (get_all_documents s))).
Proof.
  intros [Hnd Hids].
  unfold get_document, get_all_documents, PyDict.values. split.
  - intros d. split.
    + intros Hin. apply in_map_iff in Hin as [[k d'] [E Hin]].
      cbn [snd] in E. subst d'.
      rewrite Forall_forall in Hids. pose proof (Hids _ Hin) as Hk.
      cbn [fst snd] in Hk. subst k.
      now apply In_NoDup_get.
    + intros Hget. apply get_Some_In in Hget.
      now apply (in_map snd) in Hget.
  - intros doc_id. rewrite get_None_keys.
    apply wf_ids in Hids. rewrite map_map, <- Hids. reflexivity.
Qed.

Lemma get_document_agrees_with_listing_witness :
  store_wf initial_store
  /\ get_document initial_store (id doc_trends_001) = Some doc_trends_001
  /\ get_document initial_store "missing_001" = None.
Proof.
  split; [apply store_wf_initial|].
  destruct (get_document_agrees_with_listing initial_store store_wf_initial)
    as [Hlist Hnone].
  split.
  - apply Hlist. vm_compute. do 3 right. left. reflexivity.
  - apply Hnone. vm_compute. intuition discriminate.
Defined.

(** ** Context and prompt assembly *)

(** X17.  For an empty result the context is the fixed sentence "No
    relevant documents found for this query."; otherwise it starts with
    the instruction line, ends with the closing line and contains the
    content of every retrieved document. *)
Theorem build_rag_context_shape (r : RetrievalResult) :
  match documents r with
  | [] =>
      build_rag_context r = "No relevant documents found for this query."
  | _ :: _ =>
      PyStr.startswith
        (build_rag_context r)
        "Use the following retrieved documents to answer the question."
      = true
      /\ PyStr.endswith (build_rag_context r)
                        "Only use this context to generate the answer."
         = true
      /\ Forall (fun d =>
                   PyStr.contains (content d) (build_rag_context r) = true)
                (documents r)
  end.
Proof.
  unfold build_rag_context.
  destruct (documents r) as [|d l] eqn:E; [reflexivity|].
  rewrite <- E. clear E. split; [|split].
  - cbn [app]. apply concat_starts.
  - rewrite !app_assoc. apply concat_ends.
  - apply Forall_forall. intros x Hx.
    destruct (In_concat_infix nl (content x)
                ([ "Use the following retrieved documents to answer the question.";
                   "These documents are selected specifically for the current persona.";
                   EmptyString;
                   "Retrieved Context:" ]
                 ++ context_entries 1 (documents r)
                 ++ [ "Only use this context to generate the answer." ]))
      as (a & b & Hab).
    + apply in_or_app. right. apply in_or_app. left.
      now apply In_context_entries.
    + rewrite Hab. apply contains_infix.
Qed.

(** X18.  The final prompt starts with the master prompt, ends with the
    user question, and contains the role prompt and the context. *)
Theorem get_final_prompt_string_shape (c : PromptComponents) :
  PyStr.startswith (get_final_prompt_string c) (master_system_prompt c)
  = true
  /\ PyStr.endswith (get_final_prompt_string c)
                    ("User Question:" ++ nl ++ user_question c) = true
  /\ PyStr.contains (role_specific_prompt c) (get_final_prompt_string c)
     = true
  /\ PyStr.contains (rag_context c) (get_final_prompt_string c) = true.
Proof.
  unfold get_final_prompt_string, final_prompt_of.
  set (m := master_system_prompt c). set (r := role_specific_prompt c).
  set (g := rag_context c). set (q := user_question c).
  split; [apply prefix_app|]. split; [|split].
  - assert (E : m ++ nl ++ nl ++ r ++ nl ++ nl ++ g ++ nl ++ nl
                ++ "User Question:" ++ nl ++ q
                = (m ++ nl ++ nl ++ r ++ nl ++ nl ++ g ++ nl ++ nl)
                  ++ ("User Question:" ++ nl ++ q))
      by (rewrite !append_assoc; reflexivity).
    rewrite E. apply endswith_app.
  - assert (E : m ++ nl ++ nl ++ r ++ nl ++ nl ++ g ++ nl ++ nl
                ++ "User Question:" ++ nl ++ q
                = (m ++ nl ++ nl) ++ r
                  ++ (nl ++ nl ++ g ++ nl ++ nl
                      ++ "User Question:" ++ nl ++ q))
      by (rewrite !append_assoc; reflexivity).
    rewrite E. apply contains_infix.
  - assert (E : m ++ nl ++ nl ++ r ++ nl ++ nl ++ g ++ nl ++ nl
                ++ "User Question:" ++ nl ++ q
                = (m ++ nl ++ nl ++ r ++ nl ++ nl) ++ g
                  ++ (nl ++ nl ++ "User Question:" ++ nl ++ q))
      by (rewrite !append_assoc; reflexivity).
    rewrite E. apply contains_infix.
Qed.

Lemma words_of_leading_space (c : ascii) (b : string) :
  PyStr.isspace c = true -> words_of (String c b) = words_of b.
Proof.
  intros H. change (String c b) with (EmptyString ++ String c b).
  rewrite (words_of_space EmptyString b c H). reflexivity.
Qed.

Lemma count_newline_cons (s : string) :
  count_char newline (String newline s) = S (count_char newline s).
Proof. reflexivity. Qed.

Lemma len_cons (c : ascii) (s : string) :
  PyStr.len (String c s) = (1 + PyStr.len s)%Z.
Proof. unfold PyStr.len. cbn [String.length]. lia. Qed.

(** X19.  The counts reported by [analyze_prompt_structure] are those of
    the four components plus what the template adds: 21 characters, the 2
    words of "User Question:" and 4 lines. *)
Theorem analyze_prompt_structure_counts (c : PromptComponents) :
  let m := master_system_prompt c in
  let r := role_specific_prompt c in
  let g := rag_context c in
  let q := user_question c in
  PyDict.get "total_characters" (analyze_prompt_structure c)
  = Some (AInt (PyStr.len m + PyStr.len r + PyStr.len g + PyStr.len q + 21))
  /\ PyDict.get "total_words" (analyze_prompt_structure c)
     = Some (AInt (words_of m + words_of r + words_of g + words_of q + 2))
  /\ PyDict.get "line_count" (analyze_prompt_structure c)
     = Some (AInt (lines_of m + lines_of r + lines_of g + lines_of q + 4)).
Proof.
  intros m r g q.
  assert (E : get_final_prompt_string c
              = m ++ String newline
                  (String newline
                     (r ++ String newline
                        (String newline
                           (g ++ String newline
                              (String newline
                                 ("User Question:" ++ String newline q)))))))
    by reflexivity.
  assert (Hc : PyStr.len (get_final_prompt_string c)
               = (PyStr.len m + PyStr.len r + PyStr.len g + PyStr.len q
                  + 21)%Z).
  { rewrite E.
    repeat (rewrite ?len_append, ?len_cons).
    change (PyStr.len EmptyString) with 0%Z. lia. }
  assert (Hw : words_of (get_final_prompt_string c)
               = (words_of m + words_of r + words_of g + words_of q + 2)%Z).
  { rewrite E.
    repeat (rewrite ?(fun a b => words_of_space a b newline eq_refl),
                    ?(fun b => words_of_leading_space newline b eq_refl)).
    change (words_of "User Question:") with 2%Z. lia. }
  assert (Hl : lines_of (get_final_prompt_string c)
               = (lines_of m + lines_of r + lines_of g + lines_of q + 4)%Z).
  { rewrite !lines_of_count, E.
    repeat (rewrite ?count_char_app, ?count_newline_cons).
    change (count_char newline "User Question:") with 0%nat. lia. }
  unfold analyze_prompt_structure.
  fold (words_of (get_final_prompt_string c)).
  fold (lines_of (get_final_prompt_string c)).
  rewrite Hc, Hw, Hl. repeat split.
Qed.

(** ** Personas across the modules *)

(** X20.  The two persona enumerations and the filter table agree: the
    mapping keeps the name of every persona, every persona has a filter
    configuration, and every configured name is the name of a persona. *)
Theorem persona_names_agree :
  (forall p : Persona.t,
      PersonaType.value (persona_mapping p) = Persona.value p
      /\ exists filters,
           PyDict.get (Persona.value p) persona_filters = Some filters)
  /\ Forall (fun name => exists p : Persona.t, Persona.value p = name)
            (PyDict.keys persona_filters).
Proof.
  split.
  - intros p. destruct p; (split; [reflexivity | eexists; reflexivity]).
  - repeat constructor.
    + now exists Persona.EXECUTIVE.
    + now exists Persona.DEVELOPER.
    + now exists Persona.HR_SPECIALIST.
    + now exists Persona.STUDENT.
    + now exists Persona.GENERAL.
Qed.

(** X21.  The role prompt of a persona opens with the line "Current
    persona: " followed by its name, and the five personas get five
    different prompts. *)
Theorem build_dynamic_prompt_names_persona :
  (forall p : PersonaType.t,
      PyStr.startswith (build_dynamic_prompt p)
                       ("Current persona: " ++ PersonaType.value p ++ nl)
      = true)
  /\ NoDup (map build_dynamic_prompt
                [PersonaType.EXECUTIVE; PersonaType.DEVELOPER;
                 PersonaType.HR_SPECIALIST; PersonaType.STUDENT;
                 PersonaType.GENERAL]).
Proof.
  split.
  - intros p. destruct p; vm_compute; reflexivity.
  - assert (H : forall p p' : PersonaType.t,
               build_dynamic_prompt p = build_dynamic_prompt p' ->
               PersonaType.value p = PersonaType.value p').
    { intros p p' E.
      apply (f_equal (substring 17 2)) in E.
      destruct p, p'; vm_compute in E; try discriminate E; reflexivity. }
    repeat constructor; cbn [map In]; intros Hin;
      repeat match goal with
             | Hx : _ \/ _ |- _ => destruct Hx as [Hx|Hx]
             | Hx : False |- _ => destruct Hx
             | Hx : build_dynamic_prompt _ = build_dynamic_prompt _ |- _ =>
                 apply H in Hx; discriminate Hx
             end.
Qed.

(** ** Composition of the filter and effect on the store *)

Lemma sort_desc_sorted_id (l : list Document) :
  Sorted ranks_before l -> sort_desc l = l.
Proof.
  induction 1 as [|a l Hs IH Hhd]; [reflexivity|].
  cbn [sort_desc fold_right]. fold (sort_desc l). rewrite IH.
  destruct Hhd as [|e l' Hae]; [reflexivity|].
  cbn [insert_desc].
  destruct (Qltb (relevance_score a) (relevance_score e)) eqn:E;
    [|reflexivity].
  apply Qltb_lt in E. unfold ranks_before in Hae.
  exfalso. exact (Qlt_not_le _ _ E Hae).
Qed.

Lemma filter_all {A : Type} (f : A -> bool) (l : list A) :
  (forall x, In x l -> f x = true) -> filter f l = l.
Proof.
  induction l as [|x l IH]; [reflexivity|].
  intros H. cbn [filter]. rewrite (H x (or_introl eq_refl)).
  f_equal. apply IH. intros y Hy. apply H. now right.
Qed.

Lemma slice_to_idem {A : Type} (k : Z) (l : list A) :
  (0 <= k)%Z -> PyList.slice_to k (PyList.slice_to k l) = PyList.slice_to k l.
Proof.
  intros Hk. unfold PyList.slice_to.
  destruct (Z.leb_spec 0 k); [|lia].
  rewrite firstn_firstn. now rewrite Nat.min_id.
Qed.

(** X22.  Filtering twice is filtering once: the output of
    [filter_documents] is left unchanged by a second pass for the same
    persona. *)
Theorem filter_documents_idempotent (docs : list Document)
  (persona : string) :
  filter_documents (filter_documents docs persona) persona
  = filter_documents docs persona.
Proof.
  unfold filter_documents.
  destruct (PyDict.get persona persona_filters) as [f|] eqn:Hf;
    [|reflexivity].
  set (out := PyList.slice_to (max_documents f)
                (sort_desc (filter (filter_keeps f) docs))).
  assert (Hkeep : filter (filter_keeps f) out = out).
  { apply filter_all. intros x Hx. unfold out in Hx.
    apply In_slice_to in Hx. apply (proj1 (In_sort_desc _ _)) in Hx.
    now apply filter_In in Hx. }
  assert (Hsorted : sort_desc out = out).
  { apply sort_desc_sorted_id, Sorted_slice_to, sort_desc_sorted. }
  rewrite Hkeep, Hsorted. unfold out.
  apply slice_to_idem. eapply max_documents_nonneg, Hf.
Qed.

(** X23.  A retrieval changes nothing in the store but the scores: the
    keys, their order and the id, content, type and metadata of every
    document stay, and every stored document ends up with its score for
    this query. *)
Theorem retrieve_documents_store_effect (store : DocumentStore)
  (q p : string) (top_k : Z) :
  exists r store',
    retrieve_documents store q p top_k = Ok (r, store')
    /\ PyDict.keys (store_documents store')
       = PyDict.keys (store_documents store)
    /\ map (fun d => (id d, content d, doc_type d, metadata d))
           (get_all_documents store')
       = map (fun d => (id d, content d, doc_type d, metadata d))
             (get_all_documents store)
    /\ Forall (fun d => calculate_relevance d q p = Ok (relevance_score d))
              (get_all_documents store').
Proof.
  rewrite retrieve_documents_rescore. cbv zeta.
  eexists. eexists. split; [reflexivity|].
  unfold get_all_documents, PyDict.keys, PyDict.values, rescore.
  cbn [store_documents]. rewrite !map_map. cbn [fst snd].
  split; [reflexivity|]. split; [reflexivity|].
  apply Forall_forall. intros d Hd.
  apply in_map_iff in Hd as [e [<- _]].
  cbn [relevance_score set_relevance_score].
  apply (relevance_of_ok q p (snd e)).
Qed.
